(** * pyomicron: the Condor interaction utilities ([omicron/condor.py])

    A shallow embedding of the functions of [omicron/condor.py] that talk to
    the scheduler, to the submission tool and to the file system, and the
    properties of the DAG status monitor that are stated about them.

    Python values are modelled as follows.
    - [str] (a Python 2 byte string) is [string]; [dict] is [gmap string _];
      [list] is [list]; [int] is [Z].
    - A call that can raise returns a [result]: [Ok v] or [Raise e], where
      [e] carries the exception class and its [args] message.
    - The scheduler, the file system and the submission tool are external:
      the scheduler is a snapshot of its live queue and of its history,
      a polling loop sees one snapshot per observation. *)

From stdpp Require Import base numbers list strings gmap sorting.
From Stdlib Require Import Ascii String.

Local Open Scope Z_scope.
Local Open Scope string_scope.

(** ** Exceptions and fallible computations *)

Module Py.

(** The exception classes that the embedded code can raise or let through. *)
Inductive exn_class :=
  | AttributeError | IndexError | KeyError | NameError | TypeError
  | OSError | IOError | OverflowError | CalledProcessError.

Record exn := mk_exn { exn_cls : exn_class; exn_args : string }.

Inductive result (A : Type) :=
  | Ok (a : A)
  | Raise (e : exn).
Arguments Ok {A} a.
Arguments Raise {A} e.

Definition bind {A B} (m : result A) (k : A -> result B) : result B :=
  match m with
  | Ok a => k a
  | Raise e => Raise e
  end.

(** [try: m except cls as e: h e] *)
Definition try_except {A} (m : result A) (catches : exn_class -> bool)
    (h : exn -> result A) : result A :=
  match m with
  | Ok a => Ok a
  | Raise e => if catches (exn_cls e) then h e else Raise e
  end.

#[global] Instance exn_class_eq_dec : EqDecision exn_class.
Proof. solve_decision. Defined.

Definition exn_class_eqb (a b : exn_class) : bool := bool_decide (a = b).

(** [xs[0]] *)
Definition index0 {A} (xs : list A) : result A :=
  match xs with
  | x :: _ => Ok x
  | [] => Raise (mk_exn IndexError "list index out of range")
  end.

(** [xs[-1]] *)
Definition index_last {A} (xs : list A) : result A :=
  match last xs with
  | Some x => Ok x
  | None => Raise (mk_exn IndexError "list index out of range")
  end.

(** [d[k]] on a [dict] *)
Definition getitem {V} (d : gmap string V) (k : string) : result V :=
  match d !! k with
  | Some v => Ok v
  | None => Raise (mk_exn KeyError k)
  end.

(** [dict(pairs)]: later bindings of a key replace earlier ones. *)
Definition dict {V} (pairs : list (string * V)) : gmap string V :=
  foldl (fun m kv => <[kv.1 := kv.2]> m) ∅ pairs.

(** Evaluating a generator expression whose element can raise. *)
Fixpoint for_each {A B} (f : A -> result B) (xs : list A) : result (list B) :=
  match xs with
  | [] => Ok []
  | x :: xs' =>
      bind (f x) (fun y => bind (for_each f xs') (fun ys => Ok (y :: ys)))
  end.

End Py.
Import Py.

#[global] Instance result_bind : MBind Py.result := fun A B k m => Py.bind m k.
#[global] Instance result_ret : MRet Py.result := fun A a => Py.Ok a.

(** ** Byte strings *)

Module Str.

Definition code (c : ascii) : N := N_of_ascii c.

Definition is_upper (c : ascii) : bool := ((65 <=? code c) && (code c <=? 90))%N.
Definition is_lower (c : ascii) : bool := ((97 <=? code c) && (code c <=? 122))%N.
Definition is_digit (c : ascii) : bool := ((48 <=? code c) && (code c <=? 57))%N.

(** [\s] of a byte pattern: space, [\t], [\n], [\v], [\f], [\r]. *)
Definition is_space (c : ascii) : bool :=
  (code c =? 32)%N || ((9 <=? code c) && (code c <=? 13))%N.

Definition to_lower (c : ascii) : ascii :=
  if is_upper c then ascii_of_N (code c + 32) else c.
Definition to_upper (c : ascii) : ascii :=
  if is_lower c then ascii_of_N (code c - 32) else c.

(** [s.lower()] *)
Fixpoint lower (s : string) : string :=
  match s with
  | EmptyString => EmptyString
  | String c s' => String (to_lower c) (lower s')
  end.

(** [s.title()]: a letter that follows a letter is lower-cased, any other
    letter is upper-cased. *)
Fixpoint title_from (prev_cased : bool) (s : string) : string :=
  match s with
  | EmptyString => EmptyString
  | String c s' =>
      if is_lower c then
        String (if prev_cased then c else to_upper c) (title_from true s')
      else if is_upper c then
        String (if prev_cased then to_lower c else c) (title_from true s')
      else String c (title_from false s')
  end.
Definition title (s : string) : string := title_from false s.

(** [int(s)] on a string of decimal digits. *)
Fixpoint int_from (acc : Z) (s : string) : Z :=
  match s with
  | EmptyString => acc
  | String c s' => int_from (10 * acc + Z.of_N (code c - 48)) s'
  end.
Definition int (s : string) : Z := int_from 0 s.

(** [sorted(xs)] on strings: byte-wise lexicographic order. *)
Fixpoint insert_sorted (x : string) (xs : list string) : list string :=
  match xs with
  | [] => [x]
  | y :: ys => if String.leb x y then x :: xs else y :: insert_sorted x ys
  end.
Definition sorted (xs : list string) : list string :=
  foldr insert_sorted [] xs.

End Str.

(** ** The job status lexicon *)

Definition JOB_STATUS : list string :=
  [ "Unexpanded"; "Idle"; "Running"; "Removed"; "Completed"; "Held";
    "Submission error" ].

(** [enumerate(xs)] *)
Definition enumerate {A} (xs : list A) : list (Z * A) :=
  imap (fun k v => (Z.of_nat k, v)) xs.

(** [dict((v.lower(), k) for k, v in enumerate(names))] *)
Definition lexicon_of (names : list string) : gmap string Z :=
  Py.dict (map (fun kv => (Str.lower kv.2, kv.1)) (enumerate names)).

(** [JOB_STATUS_MAP = dict((v.lower(), k) for k, v in enumerate(JOB_STATUS))] *)
Definition JOB_STATUS_MAP : gmap string Z := lexicon_of JOB_STATUS.

Example job_status_map_held : JOB_STATUS_MAP !! "held" = Some 5.
Proof. vm_compute. reflexivity. Qed.

(** ** The scheduler (the [htcondor.Schedd] collaborator) *)

Module Sched.

(** The value of a ClassAd attribute. *)
Inductive value :=
  | VInt (n : Z)
  | VStr (s : string).

#[global] Instance value_eq_dec : EqDecision value.
Proof. solve_decision. Defined.

(** [v == n] for an integer [n] *)
Definition eq_int (v : value) (n : Z) : bool :=
  match v with
  | VInt m => bool_decide (m = n)
  | VStr _ => false
  end.

Abbreviation classad := (gmap string value).

(** The constraint ['<attr> == %d' % n]. *)
Record constraint := AttrEq { c_attr : string; c_val : Z }.

Definition satisfies (c : constraint) (ad : classad) : bool :=
  bool_decide (ad !! c_attr c = Some (VInt (c_val c))).

(** The attribute list of a query; the empty list asks for whole ads. *)
Definition project (attrs : list string) (ad : classad) : classad :=
  match attrs with
  | [] => ad
  | _ => filter (fun kv => kv.1 ∈ attrs) ad
  end.

(** What the scheduler holds at one moment: the jobs in its queue and the
    jobs that left it, the most recent first. *)
Record Schedd := { queue : list classad; past : list classad }.

(** The ads that satisfy a constraint, in the order they are kept in. *)
Definition matching (c : constraint) (ads : list classad) : list classad :=
  filter (fun ad => satisfies c ad = true) ads.

(** [schedd.query(constraint, attrs)] *)
Definition query (s : Schedd) (c : constraint) (attrs : list string)
    : list classad :=
  map (project attrs) (matching c (queue s)).

(** [schedd.history(constraint, attrs, match)] *)
Definition history (s : Schedd) (c : constraint) (attrs : list string)
    (n : nat) : list classad :=
  take n (map (project attrs) (matching c (past s))).

End Sched.
Import Sched.

(** ** [get_dag_status] *)

Abbreviation status := (gmap string value).

Definition states : list string :=
  [ "total"; "done"; "queued"; "ready"; "unready"; "failed" ].

(** [classads = ['DAG_Nodes%s' % s.title() for s in states]] *)
Definition classads : list string :=
  map (fun s => "DAG_Nodes" ++ Str.title s) states.

(** [dict((s, job[c]) for s, c in zip(states, classads))] *)
Definition counters_of (job : classad) : result status :=
  pairs ← Py.for_each (fun sc => v ← Py.getitem job sc.2; Ok (sc.1, v))
            (zip states classads);
  Ok (Py.dict pairs).

(** [status[key] += 1] *)
Definition incr (st : status) (key : string) : result status :=
  v ← Py.getitem st key;
  match v with
  | VInt n => Ok (<[key := VInt (n + 1)]> st)
  | VStr _ => Raise (mk_exn TypeError "cannot concatenate 'str' and 'int' objects")
  end.

(** [dict(node)['JobStatus'] == JOB_STATUS_MAP[name]] *)
Definition status_is (node : classad) (name : string) : result bool :=
  js ← Py.getitem node "JobStatus";
  code ← Py.getitem JOB_STATUS_MAP name;
  Ok (eq_int js code).

(** The body of [for node in nodes]. *)
Definition classify_node (st : status) (node : classad) : result status :=
  h ← status_is node "held";
  if h : bool then incr st "held" else
  r ← status_is node "running";
  if r : bool then incr st "running" else
  i ← status_is node "idle";
  if i : bool then incr st "idle" else Ok st.

Fixpoint classify_nodes (st : status) (nodes : list classad) : result status :=
  match nodes with
  | [] => Ok st
  | node :: nodes' => st' ← classify_node st node; classify_nodes st' nodes'
  end.

Definition get_dag_status (dagmanid : Z) (schedd : Schedd) (detailed : bool)
    : result status :=
  match Py.index0 (query schedd (AttrEq "ClusterId" dagmanid) classads) with
  | Raise e =>
      if Py.exn_class_eqb (exn_cls e) IndexError then
        (* DAG has exited *)
        job ← Py.index0 (history schedd (AttrEq "ClusterId" dagmanid)
                           (classads ++ ["ExitCode"])%list 1);
        history ← counters_of job;
        ec ← Py.getitem job "ExitCode";
        Ok (<["exitcode" := ec]> history)
      else Raise e
  | Ok job =>
      (* DAG is running, get status *)
      st ← counters_of job;
      if detailed then
        let st := <["held" := VInt 0]> st in
        let st := <["running" := VInt 0]> st in
        let st := <["idle" := VInt 0]> st in
        let nodes := query schedd (AttrEq "DAGManJobId" dagmanid) [] in
        classify_nodes st nodes
      else Ok st
  end.

(** ** The clock and the file system *)

Module Os.

(** The names that exist in the current directory. *)
Definition FS := list string.

Inductive event :=
  | EvStat (path : string)
  | EvSleep (secs : Z).

(** [stat(path)] *)
Definition stat (fs : FS) (path : string) : result unit :=
  if bool_decide (path ∈ fs) then Ok ()
  else Raise (mk_exn OSError "[Errno 2] No such file or directory").

(** [sleep(secs)]: a negative length is refused (with [IOError] on
    Python 2, which this module is written for), and so is a length beyond
    what the clock of the platform takes, [limit] (with [OverflowError]). *)
Definition sleep (limit secs : Z) : result unit :=
  if bool_decide (secs < 0) then
    Raise (mk_exn IOError "[Errno 22] Invalid argument")
  else if bool_decide (limit < secs) then
    Raise (mk_exn OverflowError "sleep length is too large")
  else Ok ().

End Os.
Import Os.

(** ** [glob] on a pattern without a directory part *)

Module Glob.

Inductive tok :=
  | TLit (c : ascii)
  | TAny
  | TStar
  | TSet (negated : bool) (ranges : list (ascii * ascii)).

(** The body of a bracket expression, read as a set of ranges. *)
Fixpoint set_items (s : string) : list (ascii * ascii) :=
  match s with
  | EmptyString => []
  | String a (String "-" (String b rest)) => (a, b) :: set_items rest
  | String a rest => (a, a) :: set_items rest
  end.

Fixpoint until_bracket (s : string) : option (string * string) :=
  match s with
  | EmptyString => None
  | String "]" rest => Some (EmptyString, rest)
  | String c rest =>
      match until_bracket rest with
      | Some (body, r) => Some (String c body, r)
      | None => None
      end
  end.

(** After an opening bracket: the negation mark, the body up to the closing
    bracket (a bracket in first place belongs to the body), and what
    follows. *)
Definition split_set (s : string) : option (bool * string * string) :=
  let '(neg, s1) :=
    match s with
    | String "!" s' => (true, s')
    | _ => (false, s)
    end in
  match s1 with
  | String "]" s2 =>
      match until_bracket s2 with
      | Some (body, r) => Some (neg, String "]" body, r)
      | None => None
      end
  | _ =>
      match until_bracket s1 with
      | Some (body, r) => Some (neg, body, r)
      | None => None
      end
  end.

Fixpoint parse (fuel : nat) (p : string) : list tok :=
  match fuel with
  | O => []
  | S fuel' =>
      match p with
      | EmptyString => []
      | String "*" r => TStar :: parse fuel' r
      | String "?" r => TAny :: parse fuel' r
      | String "[" r =>
          match split_set r with
          | Some (neg, body, rest) => TSet neg (set_items body) :: parse fuel' rest
          | None => TLit "[" :: parse fuel' r
          end
      | String c r => TLit c :: parse fuel' r
      end
  end.

Definition compile (p : string) : list tok := parse (String.length p) p.

Definition in_ranges (c : ascii) (rs : list (ascii * ascii)) : bool :=
  existsb (fun r => (Str.code r.1 <=? Str.code c)%N && (Str.code c <=? Str.code r.2)%N) rs.

Fixpoint matches (p : list tok) (s : string) : bool :=
  match p with
  | [] => match s with EmptyString => true | _ => false end
  | TLit c :: p' =>
      match s with
      | String d s' => Ascii.eqb c d && matches p' s'
      | EmptyString => false
      end
  | TAny :: p' =>
      match s with
      | String _ s' => matches p' s'
      | EmptyString => false
      end
  | TSet neg rs :: p' =>
      match s with
      | String d s' => xorb neg (in_ranges d rs) && matches p' s'
      | EmptyString => false
      end
  | TStar :: p' =>
      (fix star (s : string) : bool :=
         matches p' s ||
         match s with
         | String _ s' => star s'
         | EmptyString => false
         end) s
  end.

Definition hidden (name : string) : bool :=
  match name with String "." _ => true | _ => false end.

(** [fnmatch.fnmatch(name, pattern)] *)
Definition fnmatch (name pattern : string) : bool :=
  matches (compile pattern) name.

(** [glob(pattern)]: the names of the directory that match; a name with a
    leading dot is only matched by a pattern with a leading dot. *)
Definition glob (pattern : string) (fs : FS) : list string :=
  let names := if hidden pattern then fs
               else filter (fun n => hidden n = false) fs in
  filter (fun n => fnmatch n pattern = true) names.

End Glob.

(** ** [find_rescue_dag] *)

Definition find_rescue_dag (dagfile : string) (fs : FS) : result string :=
  Py.try_except
    (Py.index_last (Str.sorted (Glob.glob "%s.rescue[0-9][0-9][0-9]" fs)))
    (fun c => Py.exn_class_eqb c IndexError)
    (fun e => Raise (mk_exn (exn_cls e) "No rescue DAG files found")).

(** ** [monitor_dag] *)

(** What a global name of the module is bound to: a function of a DAG file
    path that returns a path, or something else. *)
Inductive pyobj :=
  | PathFunction (f : string -> FS -> result string)
  | Opaque.

(** The names bound at the top level of [omicron/condor.py]. *)
Definition module_globals : list (string * pyobj) :=
  [ ("os", Opaque); ("re", Opaque); ("sleep", Opaque); ("stat", Opaque);
    ("glob", Opaque); ("htcondor", Opaque); ("pipeline", Opaque);
    ("shell", Opaque); ("which", Opaque); ("re_dagman_cluster", Opaque);
    ("JOB_STATUS", Opaque); ("JOB_STATUS_MAP", Opaque);
    ("JOB_UNIVERSE", Opaque); ("submit_dag", Opaque);
    ("monitor_dag", Opaque); ("find_rescue_dag", PathFunction find_rescue_dag);
    ("iterate_dag_status", Opaque); ("get_dag_status", Opaque);
    ("OmicronProcessJob", Opaque) ].

Fixpoint assoc {A} (k : string) (l : list (string * A)) : option A :=
  match l with
  | [] => None
  | (k', v) :: l' => if String.eqb k k' then Some v else assoc k l'
  end.

(** Reading a global name. *)
Definition load_global (name : string) : result pyobj :=
  match assoc name module_globals with
  | Some o => Ok o
  | None => Raise (mk_exn NameError ("global name '" ++ name ++ "' is not defined"))
  end.

(** Calling what a global name is bound to on a DAG file path. *)
Definition call_path (o : pyobj) (dagfile : string) (fs : FS) : result string :=
  match o with
  | PathFunction f => f dagfile fs
  | Opaque => Raise (mk_exn TypeError "object is not callable on a DAG file")
  end.

(** The file system as the program observes it: [world k] is its state
    after [k] sleeps. *)
Definition World := nat -> FS.

(** The outcome of a run that was given [fuel] loop iterations: [None] when
    the loop is still going after them. *)
Definition run (A : Type) : Type := option (result A * list event).

(** [while True: sleep(interval); try: stat(lock) except OSError: break];
    returns the number of sleeps at the [break]. *)
Fixpoint monitor_loop (fuel : nat) (limit : Z) (world : World) (lock : string)
    (interval : Z) (tick : nat) (tr : list event) : run nat :=
  match fuel with
  | O => None
  | S fuel' =>
      match Os.sleep limit interval with
      | Raise e => Some (Raise e, (tr ++ [EvSleep interval])%list)
      | Ok _ =>
          let tr := (tr ++ [EvSleep interval; EvStat lock])%list in
          match Os.stat (world (S tick)) lock with
          | Raise e =>
              if Py.exn_class_eqb (exn_cls e) OSError then Some (Ok (S tick), tr)
              else Some (Raise e, tr)
          | Ok _ => monitor_loop fuel' limit world lock interval (S tick) tr
          end
      end
  end.

Definition monitor_dag (fuel : nat) (limit : Z) (world : World)
    (dagfile : string) (interval : Z) : run unit :=
  let lock := dagfile ++ ".lock" in
  match Os.stat (world O) lock with
  | Raise e => Some (Raise e, [EvStat lock])
  | Ok _ =>
      match monitor_loop fuel limit world lock interval O [EvStat lock] with
      | None => None
      | Some (Raise e, tr) => Some (Raise e, tr)
      | Some (Ok tick, tr) =>
          Some (Py.try_except
                  (f ← load_global "find_rescue";
                   _ ← call_path f dagfile (world tick);
                   Ok ())
                  (fun c => Py.exn_class_eqb c IndexError)
                  (fun _ => Ok ()),
                tr)
      end
  end.

(** ** [iterate_dag_status] *)

(** The scheduler as a polling loop observes it through one connection:
    [conn k] is what it holds after [k] sleeps.  The loop is also given
    [limit], the longest sleep that the clock of the platform takes. *)
Definition Connection := nat -> Schedd.

Module Gen.

(** Where the generator stands: not started, suspended at its [yield] with
    the local [status], or exhausted. *)
Inductive frame :=
  | Created
  | Suspended (st : status) (tick : nat)
  | Exhausted.

Inductive step :=
  | Yield (st : status)
  | StopIteration
  | Throw (e : exn).

(** [status = get_dag_status(clusterid, schedd=schedd, detailed=True);
     yield status] *)
Definition poll (conn : Connection) (clusterid : Z) (tick : nat)
    : step * frame :=
  match get_dag_status clusterid (conn tick) true with
  | Ok st => (Yield st, Suspended st tick)
  | Raise e => (Throw e, Exhausted)
  end.

(** One [next()] on the generator. *)
Definition next (limit : Z) (conn : Connection) (clusterid interval : Z)
    (g : frame) : step * frame :=
  match g with
  | Created => poll conn clusterid O
  | Suspended st tick =>
      (* if 'exitcode' in status: break *)
      if bool_decide (is_Some (st !! "exitcode")) then (StopIteration, Exhausted)
      else
        match Os.sleep limit interval with
        | Raise e => (Throw e, Exhausted)
        | Ok _ => poll conn clusterid (S tick)
        end
  | Exhausted => (StopIteration, Exhausted)
  end.

Inductive ending :=
  | Running
  | Stopped
  | Failed (e : exn).

(** Drawing from the generator with at most [fuel] calls of [next]: the
    snapshots obtained, and how the drawing ended. *)
Fixpoint drain (fuel : nat) (limit : Z) (conn : Connection)
    (clusterid interval : Z) (g : frame) : list status * ending :=
  match fuel with
  | O => ([], Running)
  | S fuel' =>
      match next limit conn clusterid interval g with
      | (Yield st, g') =>
          let '(sts, e) := drain fuel' limit conn clusterid interval g' in
          (st :: sts, e)
      | (StopIteration, _) => ([], Stopped)
      | (Throw e, _) => ([], Failed e)
      end
  end.

(** The frames from which the next [next()] makes a query. *)
Definition ready (g : frame) : Prop :=
  match g with
  | Created => True
  | Suspended st _ => st !! "exitcode" = None
  | Exhausted => False
  end.

(** The frames from which the next [next()] stops the iteration. *)
Definition over (g : frame) : Prop :=
  match g with
  | Created => False
  | Suspended st _ => is_Some (st !! "exitcode")
  | Exhausted => True
  end.

Definition next_tick (g : frame) : nat :=
  match g with
  | Suspended _ tick => S tick
  | _ => O
  end.

End Gen.

Definition iterate_dag_status (fuel : nat) (limit : Z) (conn : Connection)
    (clusterid interval : Z) : list status * Gen.ending :=
  Gen.drain fuel limit conn clusterid interval Gen.Created.

(** ** [submit_dag] *)

Module Re.

Inductive atom :=
  | Lit (c : ascii)
  | Space.

Definition lits (s : string) : list atom := map Lit (list_ascii_of_string s).

(** The look-behind of [re_dagman_cluster]: [submitted\sto\scluster ]. *)
Definition phrase : list atom :=
  (lits "submitted" ++ [Space] ++ lits "to" ++ [Space] ++ lits "cluster"
   ++ [Lit " "])%list.

Definition atom_ok (a : atom) (c : ascii) : bool :=
  match a with
  | Lit d => Ascii.eqb d c
  | Space => Str.is_space c
  end.

(** What is left of [s] after the atoms. *)
Fixpoint eat (p : list atom) (s : string) : option string :=
  match p with
  | [] => Some s
  | a :: p' =>
      match s with
      | String c s' => if atom_ok a c then eat p' s' else None
      | EmptyString => None
      end
  end.

(** The longest prefix of digits: [[0-9]*]. *)
Fixpoint digits (s : string) : string :=
  match s with
  | String c s' => if Str.is_digit c then String c (digits s') else EmptyString
  | EmptyString => EmptyString
  end.

(** The phrase at the head of [s] followed by [[0-9]+]: the digits. *)
Definition match_here (s : string) : option string :=
  match eat phrase s with
  | Some rest =>
      match digits rest with
      | EmptyString => None
      | ds => Some ds
      end
  | None => None
  end.

(** [re_dagman_cluster.search(out)]: the leftmost position that the phrase
    ends at and a digit starts at; the group is the run of digits there.
    The look-behind has a fixed width, so the scan looks for the place the
    phrase starts at. *)
Fixpoint search (out : string) : option string :=
  match match_here out with
  | Some ds => Some ds
  | None =>
      match out with
      | String _ out' => search out'
      | EmptyString => None
      end
  end.


(** [s] starts with the marker: the phrase, its two separators being any
    white space, and then a digit. *)
Definition marker_here (s : string) : Prop :=
  exists w1 w2 d rest,
    s = "submitted" ++ String w1 ("to" ++ String w2 ("cluster " ++ String d rest)) /\
    Str.is_space w1 = true /\ Str.is_space w2 = true /\ Str.is_digit d = true.

(** [out] contains the marker somewhere. *)
Definition has_marker (out : string) : Prop :=
  exists pre s, out = pre ++ s /\ marker_here s.

Definition all_digits (s : string) : Prop :=
  Forall (fun c => Str.is_digit c = true) (list_ascii_of_string s).

(** [s] does not go on with a digit. *)
Definition no_digit_ahead (s : string) : Prop :=
  match s with
  | String c _ => Str.is_digit c = false
  | EmptyString => True
  end.

End Re.

(** The helpers of [omicron/utils.py] ([which] finds an executable, [shell]
    runs a command and gives its output, or raises [CalledProcessError] when
    the command fails), taken as given. *)
Record Tools := {
  which : string -> result string;
  shell : list string -> result string
}.

(** The output of the tool is also printed, which the result does not
    depend on. *)
Definition submit_dag (env : Tools) (dagfile : string) (force : bool)
    : result Z :=
  exe ← which env "condor_submit_dag";
  let cmd := [exe] in
  let cmd := if force then (cmd ++ ["-force"])%list else cmd in
  let cmd := (cmd ++ [dagfile])%list in
  out ← shell env cmd;
  Py.try_except
    (match Re.search out with
     | Some m => Ok (Str.int m)
     | None => Raise (mk_exn AttributeError
                        "'NoneType' object has no attribute 'group'")
     end)
    (fun c => bool_decide (c ∈ [AttributeError; IndexError; TypeError]))
    (fun e => Raise (mk_exn (exn_cls e)
                       "Failed to extract DAG cluster ID from condor_submit_dag output")).

(** ** The vocabulary of the properties *)

(** The record of a DAG as the scheduler keeps it: the six node counters,
    each a non-negative integer. *)
Definition dag_record (job : classad) : Prop :=
  Forall (fun c => exists n, job !! c = Some (VInt n) /\ 0 <= n) classads.

Definition six (v1 v2 v3 v4 v5 v6 : value) : status :=
  <["failed" := v6]> (<["unready" := v5]> (<["ready" := v4]>
  (<["queued" := v3]> (<["done" := v2]> (<["total" := v1]> ∅))))).

(** The three detail counters. *)
Definition details : list string := [ "held"; "running"; "idle" ].

(** [node] is in the state of code [code]. *)
Definition has_status (code : Z) (node : classad) : bool :=
  match node !! "JobStatus" with
  | Some v => eq_int v code
  | None => false
  end.

Definition count_status (code : Z) (nodes : list classad) : Z :=
  Z.of_nat (List.length (filter (fun n => has_status code n = true) nodes)).

Definition indicator (b : bool) : Z := if b then 1 else 0.

(** The records that [get_dag_status] asks for. *)
Definition live_records (id : Z) (s : Schedd) : list classad :=
  matching (AttrEq "ClusterId" id) (queue s).
Definition past_records (id : Z) (s : Schedd) : list classad :=
  matching (AttrEq "ClusterId" id) (past s).
Definition node_records (id : Z) (s : Schedd) : list classad :=
  matching (AttrEq "DAGManJobId" id) (queue s).

(** What the scheduler holds of a DAG that is running: a record of it in
    the queue, and the status of each of its jobs. *)
Definition live_in (id : Z) (s : Schedd) : Prop :=
  exists raw rest,
    live_records id s = raw :: rest /\ dag_record raw /\
    Forall (fun node => is_Some (node !! "JobStatus")) (node_records id s).

(** What the scheduler holds of a DAG that has finished: no record of it in
    the queue, and a record with its exit code in the history. *)
Definition finished_in (id : Z) (s : Schedd) : Prop :=
  live_records id s = [] /\
  exists raw older,
    past_records id s = raw :: older /\ dag_record raw /\
    is_Some (raw !! "ExitCode").

(** The command that [submit_dag] runs. *)
Definition submit_command (exe dagfile : string) (force : bool) : list string :=
  (exe :: (if force then ["-force"] else []) ++ [dagfile])%list.


Definition is_sleep (ev : event) : bool :=
  match ev with EvSleep _ => true | _ => false end.

(** How many times a run has slept. *)
Definition sleeps (tr : list event) : nat :=
  List.length (List.filter is_sleep tr).

(** ** [OmicronProcessJob] *)

(** [os.path] on POSIX paths. *)
Module Path.

Definition is_slash (c : ascii) : bool := Ascii.eqb c "/".
Definition is_dot (c : ascii) : bool := Ascii.eqb c ".".

Fixpoint has_slash (s : string) : bool :=
  match s with
  | EmptyString => false
  | String c s' => is_slash c || has_slash s'
  end.

(** [p[:i], p[i:]] for [i = p.rfind('/') + 1] *)
Fixpoint split_dir (p : string) : string * string :=
  match p with
  | EmptyString => (EmptyString, EmptyString)
  | String c p' =>
      if has_slash p then
        let '(head, name) := split_dir p' in (String c head, name)
      else (EmptyString, p)
  end.

(** [os.path.basename(p)] *)
Definition basename (p : string) : string := (split_dir p).2.

(** [name[:d], name[d:]] for the last dot [d] of [name], when it has one. *)
Fixpoint rsplit_dot (name : string) : option (string * string) :=
  match name with
  | EmptyString => None
  | String c name' =>
      match rsplit_dot name' with
      | Some (a, ext) => Some (String c a, ext)
      | None => if is_dot c then Some (EmptyString, name) else None
      end
  end.

Fixpoint all_dots (s : string) : bool :=
  match s with
  | EmptyString => true
  | String c s' => is_dot c && all_dots s'
  end.

(** [os.path.splitext(p)]: the extension starts at the last dot of the last
    component, unless only dots come before it there. *)
Definition splitext (p : string) : string * string :=
  let '(head, name) := split_dir p in
  match rsplit_dot name with
  | Some (a, ext) => if all_dots a then (p, EmptyString) else (head ++ a, ext)
  | None => (p, EmptyString)
  end.

Fixpoint has_dot (s : string) : bool :=
  match s with
  | EmptyString => false
  | String c s' => is_dot c || has_dot s'
  end.

Fixpoint ends_with_slash (s : string) : bool :=
  match s with
  | EmptyString => false
  | String c EmptyString => is_slash c
  | String _ s' => ends_with_slash s'
  end.

(** [os.path.join(a, b)] *)
Definition join (a b : string) : string :=
  match b with
  | String "/" _ => b
  | _ =>
      match a with
      | EmptyString => b
      | _ => if ends_with_slash a then a ++ b else a ++ "/" ++ b
      end
  end.

End Path.

(** [s.replace(old, new)] for a non-empty [old]: the occurrences of [old]
    are replaced from the left, each one starting after the one before.
    [skip] counts the bytes of an occurrence still to pass over. *)
Fixpoint replace_from (skip : nat) (old new s : string) : string :=
  match s with
  | EmptyString => EmptyString
  | String c s' =>
      match skip with
      | S k => replace_from k old new s'
      | O =>
          if String.prefix old s
          then new ++ replace_from (String.length old - 1) old new s'
          else String c (replace_from O old new s')
      end
  end.

Definition replace (old new s : string) : string := replace_from O old new s.

(** [old] occurs in [s]. *)
Definition occurs (old s : string) : Prop := exists a b, s = a ++ old ++ b.

(** [old in s] *)
Fixpoint occursb (old s : string) : bool :=
  String.prefix old s ||
  match s with
  | String _ s' => occursb old s'
  | EmptyString => false
  end.

Module Job.

(** What the job does to itself through the methods of
    [pipeline.CondorDAGJob], which the module imports: the name of the
    method and its arguments. *)
Record call := ParentCall { method : string; args : list string }.

#[global] Instance call_eq_dec : EqDecision call.
Proof. solve_decision. Defined.

(** The truth value of an optional string argument. *)
Definition truthy (o : option string) : bool :=
  match o with
  | Some (String _ _) => true
  | _ => false
  end.

Definition logtag : string := "$(cluster)-$(process)".

(** The methods of the parent that [__init__] calls before it goes through
    the keywords. *)
Definition first_methods : list string :=
  [ "__init__"; "set_sub_file"; "set_log_file"; "set_stderr_file";
    "set_stdout_file" ].

Section job.

(** The attributes of [pipeline.CondorDAGJob] by name, and
    [os.path.abspath], which depends on the working directory. *)
Context (parent_has : string -> bool) (abspath : string -> string).

(** The job: the calls made on the parent so far, and [_command]. *)
Record t := { calls : list call; _command : option string }.

(** [hasattr(self, name)] *)
Definition hasattr (name : string) : bool :=
  bool_decide (name ∈ [ "set_command"; "get_command"; "add_opt";
                        "write_sub_file"; "logtag" ])
  || parent_has name.

(** [getattr(self, name)(val)] for a name that [hasattr] accepts:
    [set_command] is the method of the class, any other name is looked up in
    the parent. *)
Definition call_attr (name val : string) (job : t) : t :=
  if String.eqb name "set_command"
  then {| calls := calls job; _command := Some val |}
  else {| calls := (calls job ++ [ParentCall name [val]])%list;
          _command := _command job |}.

Definition parent_call (m : string) (a : list string) (job : t) : t :=
  {| calls := (calls job ++ [ParentCall m a])%list; _command := _command job |}.

(** The body of [for key, val in cmds.iteritems()]. *)
Definition dispatch (job : t) (kv : string * string) : t :=
  let name := "set_" ++ Str.lower kv.1 in
  if hasattr name then call_attr name kv.2 job
  else parent_call "add_condor_cmd" [kv.1; kv.2] job.

(** The call that the loop makes for the keyword [key] with the value
    [val], when it makes one on the parent. *)
Definition kwarg_call (key val : string) : option call :=
  let name := "set_" ++ Str.lower key in
  if hasattr name then
    if String.eqb name "set_command" then None
    else Some (ParentCall name [val])
  else Some (ParentCall "add_condor_cmd" [key; val]).

(** What [__init__] is compared with.  [keyword_call] describes, without
    [hasattr], the one call on the parent that a keyword stands for: none
    for a keyword [command] in any casing, the method [set_<key.lower()>] of
    the parent when it has one, and [add_condor_cmd] otherwise. *)
Definition keyword_call (key val : string) : option call :=
  if String.eqb (Str.lower key) "command" then None
  else if parent_has ("set_" ++ Str.lower key)
       then Some (ParentCall ("set_" ++ Str.lower key) [val])
       else Some (ParentCall "add_condor_cmd" [key; val]).

(** The calls on the parent that come before the keywords, as a list. *)
Definition first_calls (universe executable : string)
    (tag subdir logdir : option string) : list call :=
  let tag := match tag with
             | Some tag => tag
             | None => Path.basename (Path.splitext executable).1
             end in
  ([ParentCall "__init__" [universe; executable]] ++
   (if truthy subdir then
      [ParentCall "set_sub_file"
         [Path.join (abspath (default "" subdir)) (tag ++ ".sub")]]
    else []) ++
   (if truthy logdir then
      [ParentCall "set_log_file"
         [Path.join (abspath (default "" logdir)) (tag ++ "-" ++ logtag ++ ".log")];
       ParentCall "set_stderr_file"
         [Path.join (abspath (default "" logdir)) (tag ++ "-" ++ logtag ++ ".err")];
       ParentCall "set_stdout_file"
         [Path.join (abspath (default "" logdir)) (tag ++ "-" ++ logtag ++ ".out")]]
    else []))%list.

(** [cmds.setdefault('getenv', 'True')] *)
Definition setdefault_getenv (cmds : gmap string string) : gmap string string :=
  match cmds !! "getenv" with
  | Some _ => cmds
  | None => <["getenv" := "True"]> cmds
  end.

(** [OmicronProcessJob.__init__(universe, executable, tag, subdir, logdir,
    **cmds)]; the keywords are gone through in the order of the
    dictionary. *)
Definition init (universe executable : string) (tag subdir logdir : option string)
    (cmds : gmap string string) : t :=
  let job := {| calls := [ParentCall "__init__" [universe; executable]];
                _command := None |} in
  let tag := match tag with
             | Some tag => tag
             | None => Path.basename (Path.splitext executable).1
             end in
  let job :=
    if truthy subdir then
      let subdir := abspath (default "" subdir) in
      parent_call "set_sub_file" [Path.join subdir (tag ++ ".sub")] job
    else job in
  let job :=
    if truthy logdir then
      let logdir := abspath (default "" logdir) in
      let job := parent_call "set_log_file"
                   [Path.join logdir (tag ++ "-" ++ logtag ++ ".log")] job in
      let job := parent_call "set_stderr_file"
                   [Path.join logdir (tag ++ "-" ++ logtag ++ ".err")] job in
      parent_call "set_stdout_file"
        [Path.join logdir (tag ++ "-" ++ logtag ++ ".out")] job
    else job in
  let cmds := setdefault_getenv cmds in
  let job := foldl dispatch job (map_to_list cmds) in
  {| calls := calls job; _command := None |}.

Definition set_command (command : option string) (job : t) : t :=
  {| calls := calls job; _command := command |}.

Definition get_command (job : t) : option string := _command job.

(** The files, by path. *)
Definition Files := gmap string string.

(** The text that opens the arguments of a submit file: [arguments = ]
    and a double quote. *)
Definition arguments_mark : string := "arguments = " ++ String "034" "".

(** [open(path, 'r').read()] *)
Definition read (files : Files) (path : string) : result string :=
  match files !! path with
  | Some text => Ok text
  | None => Raise (mk_exn IOError "[Errno 2] No such file or directory")
  end.

(** [OmicronProcessJob.write_sub_file()]: [parent_write] is the method of the
    parent, which writes the submit file, and [sub_file] is what the
    parent's [get_sub_file] gives. *)
Definition write_sub_file (parent_write : Files -> result Files)
    (sub_file : string) (job : t) (files : Files) : result Files :=
  files ← parent_write files;
  if truthy (get_command job) then
    sub ← read files sub_file;
    let sub := replace arguments_mark
                 (arguments_mark ++ " " ++ default "" (get_command job)) sub in
    Ok (<[sub_file := sub]> files)
  else Ok files.

End job.
End Job.

(** A name of the form [%s.rescueNNN], [NNN] being three digits: what the
    pattern of [find_rescue_dag] matches. *)
Definition rescue_name (p : string) : Prop :=
  exists a b c,
    p = "%s.rescue" ++ String a (String b (String c "")) /\
    Str.is_digit a = true /\ Str.is_digit b = true /\ Str.is_digit c = true.

(** ** Sample inputs *)

Module Demo.

Definition dag_ad (cluster total done queued : Z) : classad :=
  Py.dict [ ("ClusterId", VInt cluster); ("JobStatus", VInt 2);
            ("DAG_NodesTotal", VInt total); ("DAG_NodesDone", VInt done);
            ("DAG_NodesQueued", VInt queued); ("DAG_NodesReady", VInt 0);
            ("DAG_NodesUnready", VInt (total - done - queued));
            ("DAG_NodesFailed", VInt 0) ].

Definition node_ad (cluster dag js : Z) : classad :=
  Py.dict [ ("ClusterId", VInt cluster); ("DAGManJobId", VInt dag);
            ("JobStatus", VInt js) ].

Definition live : Schedd :=
  {| queue := [ dag_ad 4821 10 3 4; node_ad 4822 4821 2; node_ad 4823 4821 1;
                node_ad 4824 4821 5; node_ad 4825 4821 2; node_ad 4826 4821 4;
                node_ad 4900 4899 2 ];
     past := [] |}.

Definition finished : Schedd :=
  {| queue := [ node_ad 4900 4899 2 ];
     past := [ <["ExitCode" := VInt 0]> (dag_ad 4821 10 10 0) ] |}.


(** The longest sleep of the clock: the seconds that are counted in 63 bits
    of nanoseconds. *)
Definition clock_limit : Z := 9223372036.

(** Three observations of the running DAG, then the finished one. *)
Definition script : Connection :=
  fun k => if (k <? 3)%nat then live else finished.


Definition condor_out : string :=
  "Submitting job(s).
1 job(s) submitted to cluster 4821.
-----------------------------------------------------------------------
".

Definition tools (out : string) : Tools :=
  {| which := fun name => Ok ("/usr/bin/" ++ name);
     shell := fun _ => Ok out |}.

(** A submit file as the parent writes it, before and after the double
    quote that opens the arguments. *)
Definition sub_pre : string :=
  "universe = vanilla
executable = /usr/bin/omicron
".

Definition sub_post : string :=
  " --verbose " ++ String "034" "
getenv = True
queue 1
".

Definition parent_write (text : string) (files : Job.Files)
    : result Job.Files :=
  Ok (<["omicron.sub" := text]> files).

Definition job_with_command : Job.t :=
  Job.set_command (Some "process") {| Job.calls := []; Job._command := None |}.

Definition parent_has (name : string) : bool :=
  bool_decide (name ∈ [ "set_universe"; "set_executable"; "set_sub_file";
                        "set_log_file"; "set_stderr_file"; "set_stdout_file" ]).

Definition keywords : gmap string string :=
  list_to_map [ ("Universe", "local"); ("command", "process");
                ("GetEnv", "False"); ("request_memory", "1000") ].


End Demo.

(** * Properties *)

(** Membership of a literal in a literal list. *)
Ltac elem_of_literal :=
  repeat first [ apply list_elem_of_here | apply list_elem_of_further ].

Ltac not_elem_of_literal :=
  let H := fresh in
  intros H; repeat (apply elem_of_cons in H as [H|H]; [discriminate H|]);
  by apply not_elem_of_nil in H.

(** ** The clock *)

Lemma sleep_Ok limit secs : 0 <= secs <= limit -> Os.sleep limit secs = Ok ().
Proof.
  intros H. unfold Os.sleep.
  by rewrite !bool_decide_eq_false_2 by lia.
Qed.

(** A sleep fails for a negative length and for a length beyond the limit,
    and only then. *)
Lemma sleep_Raise limit secs e :
  Os.sleep limit secs = Raise e ->
  exn_cls e = IOError /\ secs < 0 \/ exn_cls e = OverflowError /\ limit < secs.
Proof.
  unfold Os.sleep. repeat case_bool_decide; [| |done].
  - intros [= <-]. by left.
  - intros [= <-]. by right.
Qed.

(** ** The job status lexicon *)

Lemma JOB_STATUS_MAP_unfold :
  JOB_STATUS_MAP =
    <["submission error" := 6]> (<["held" := 5]> (<["completed" := 4]>
    (<["removed" := 3]> (<["running" := 2]> (<["idle" := 1]>
    (<["unexpanded" := 0]> ∅)))))).
Proof. vm_compute. reflexivity. Qed.

Lemma JOB_STATUS_MAP_held : Py.getitem JOB_STATUS_MAP "held" = Ok 5.
Proof. vm_compute. reflexivity. Qed.

Lemma JOB_STATUS_MAP_running : Py.getitem JOB_STATUS_MAP "running" = Ok 2.
Proof. vm_compute. reflexivity. Qed.

Lemma JOB_STATUS_MAP_idle : Py.getitem JOB_STATUS_MAP "idle" = Ok 1.
Proof. vm_compute. reflexivity. Qed.

(** C7, as stated, fails: the dictionary is keyed by the lower-cased names
    only, so a name in another casing, here [Held], is not a key of it and
    the lookup raises [KeyError], although it is a casing of [held]. *)
Lemma JOB_STATUS_MAP_Held_missing :
  Str.lower "Held" = "held" /\
  JOB_STATUS_MAP !! "held" = Some 5 /\
  JOB_STATUS_MAP !! "Held" = None /\
  Py.getitem JOB_STATUS_MAP "Held" = Raise (mk_exn KeyError "Held").
Proof. vm_compute. auto. Qed.

Lemma lexicon_of_casing (names names' : list string) :
  Forall2 (fun a b => Str.lower a = Str.lower b) names names' ->
  lexicon_of names = lexicon_of names'.
Proof.
  intros H. unfold lexicon_of, enumerate. f_equal.
  generalize Z.of_nat.
  induction H as [|a b names names' Hab _ IH]; intros code; [done|].
  cbn [imap map snd fst]. rewrite Hab. f_equal.
  exact (IH (fun k => code (S k))).
Qed.

(** C7 (amended): the lexicon maps the lower-cased spelling of the seven
    names [Unexpanded, Idle, Running, Removed, Completed, Held,
    Submission error] to the codes 0 to 6 in that order, whatever the casing
    of the names in the list, and holds nothing else; so an input in any
    casing of a name has that name's code once it is lower-cased, and [held]
    has code 5, [running] 2 and [idle] 1. *)
Theorem JOB_STATUS_MAP_lexicon :
  (forall names : list string,
      Forall2 (fun a b => Str.lower a = Str.lower b) names JOB_STATUS ->
      lexicon_of names = JOB_STATUS_MAP) /\
  (forall (i : nat) (name s : string),
      JOB_STATUS !! i = Some name ->
      Str.lower s = Str.lower name ->
      JOB_STATUS_MAP !! Str.lower s = Some (Z.of_nat i)) /\
  (forall (key : string) (k : Z),
      JOB_STATUS_MAP !! key = Some k ->
      0 <= k <= 6 /\
      exists name, JOB_STATUS !! Z.to_nat k = Some name /\ key = Str.lower name) /\
  List.length JOB_STATUS = 7%nat /\
  JOB_STATUS_MAP !! "held" = Some 5 /\
  JOB_STATUS_MAP !! "running" = Some 2 /\
  JOB_STATUS_MAP !! "idle" = Some 1.
Proof.
  split; [intros names H; by apply lexicon_of_casing|].
  split; [|split; [|by vm_compute]].
  - intros i name s Hi ->.
    do 7 (destruct i as [|i]; [injection Hi as <-; by vm_compute|]).
    discriminate Hi.
  - intros key k. rewrite JOB_STATUS_MAP_unfold.
    repeat (rewrite lookup_insert_Some; intros [[<- <-]|[_ H]];
            [split; [lia|eexists; split; [reflexivity|by vm_compute]]|revert H]).
    by rewrite lookup_empty.
Qed.

Lemma JOB_STATUS_MAP_lexicon_witness :
  JOB_STATUS_MAP !! Str.lower "HeLD" = Some 5 /\
  (0 <= 2 <= 6 /\
   exists name, JOB_STATUS !! Z.to_nat 2 = Some name /\ "running" = Str.lower name).
Proof.
  split.
  - apply (proj1 (proj2 JOB_STATUS_MAP_lexicon) 5%nat "Held" "HeLD"); reflexivity.
  - apply (proj1 (proj2 (proj2 JOB_STATUS_MAP_lexicon)) "running" 2). reflexivity.
Defined.

(** ** [get_dag_status] *)

Lemma classads_unfold :
  classads = [ "DAG_NodesTotal"; "DAG_NodesDone"; "DAG_NodesQueued";
               "DAG_NodesReady"; "DAG_NodesUnready"; "DAG_NodesFailed" ].
Proof. reflexivity. Qed.

Lemma counters_of_Ok (job : classad) (st : status) :
  counters_of job = Ok st <->
  exists v1 v2 v3 v4 v5 v6,
    job !! "DAG_NodesTotal" = Some v1 /\ job !! "DAG_NodesDone" = Some v2 /\
    job !! "DAG_NodesQueued" = Some v3 /\ job !! "DAG_NodesReady" = Some v4 /\
    job !! "DAG_NodesUnready" = Some v5 /\ job !! "DAG_NodesFailed" = Some v6 /\
    st = six v1 v2 v3 v4 v5 v6.
Proof.
  unfold counters_of. rewrite classads_unfold. unfold states, Py.getitem.
  cbn [zip zip_with Py.for_each mbind result_bind Py.bind fst snd].
  split.
  - destruct (job !! "DAG_NodesTotal") as [v1|]; [|done].
    destruct (job !! "DAG_NodesDone") as [v2|]; [|done].
    destruct (job !! "DAG_NodesQueued") as [v3|]; [|done].
    destruct (job !! "DAG_NodesReady") as [v4|]; [|done].
    destruct (job !! "DAG_NodesUnready") as [v5|]; [|done].
    destruct (job !! "DAG_NodesFailed") as [v6|]; [|done].
    cbn. intros [= <-]. by exists v1, v2, v3, v4, v5, v6.
  - intros (v1 & v2 & v3 & v4 & v5 & v6 & -> & -> & -> & -> & -> & -> & ->).
    reflexivity.
Qed.

Lemma counters_of_Raise (job : classad) (e : exn) :
  counters_of job = Raise e -> exn_cls e = KeyError.
Proof.
  unfold counters_of. rewrite classads_unfold. unfold states, Py.getitem.
  cbn [zip zip_with Py.for_each mbind result_bind Py.bind fst snd].
  repeat (match goal with
          | |- context [job !! ?k] => destruct (job !! k); [|by intros [= <-]]
          end).
  done.
Qed.

Lemma count_status_cons code node nodes :
  count_status code (node :: nodes) =
  indicator (has_status code node) + count_status code nodes.
Proof.
  unfold count_status. rewrite filter_cons.
  case_decide as H.
  - rewrite H. cbn [List.length indicator]. lia.
  - apply not_true_is_false in H. rewrite H. cbn [indicator]. lia.
Qed.

Lemma count_status_bounds code nodes :
  0 <= count_status code nodes <= Z.of_nat (List.length nodes).
Proof.
  unfold count_status. split; [lia|].
  apply inj_le, length_filter.
Qed.

Lemma has_status_exclusive a b node :
  a <> b -> has_status a node = true -> has_status b node = false.
Proof.
  unfold has_status. destruct (node !! "JobStatus") as [[n|s]|]; simpl; try done.
  intros Hab Ha. apply bool_decide_eq_true in Ha. subst.
  by apply bool_decide_eq_false.
Qed.

Lemma status_is_has_status node name code :
  is_Some (node !! "JobStatus") ->
  Py.getitem JOB_STATUS_MAP name = Ok code ->
  status_is node name = Ok (has_status code node).
Proof.
  intros [v Hv] Hc. unfold status_is, has_status. rewrite Hc.
  unfold Py.getitem. by rewrite Hv.
Qed.

Lemma incr_Ok (st : status) key n :
  st !! key = Some (VInt n) -> incr st key = Ok (<[key := VInt (n + 1)]> st).
Proof. intros H. unfold incr, Py.getitem. by rewrite H. Qed.

Lemma incr_inv (st st' : status) key :
  incr st key = Ok st' -> exists v, st' = <[key := v]> st.
Proof.
  unfold incr, Py.getitem. destruct (st !! key) as [[n|s]|]; cbn; try done.
  intros [= <-]. eauto.
Qed.

Lemma incr_Raise (st : status) key e :
  incr st key = Raise e -> exn_cls e = KeyError \/ exn_cls e = TypeError.
Proof.
  unfold incr, Py.getitem. destruct (st !! key) as [[n|s]|]; cbn; try done.
  - intros [= <-]. by right.
  - intros [= <-]. by left.
Qed.

Lemma status_is_Raise node name e :
  status_is node name = Raise e -> exn_cls e = KeyError.
Proof.
  unfold status_is, Py.getitem.
  destruct (node !! "JobStatus"); [|by intros [= <-]].
  destruct (JOB_STATUS_MAP !! name); [done|by intros [= <-]].
Qed.

(** One pass of the loop body touches at most one detail counter. *)
Lemma classify_node_inv (st st' : status) node :
  classify_node st node = Ok st' ->
  st' = st \/ exists key v, key ∈ details /\ st' = <[key := v]> st.
Proof.
  unfold classify_node.
  destruct (status_is node "held") as [[]|]; cbn; try done.
  { intros (v & ->)%incr_inv. right. exists "held", v. split; [|done].
    elem_of_literal. }
  destruct (status_is node "running") as [[]|]; cbn; try done.
  { intros (v & ->)%incr_inv. right. exists "running", v. split; [|done].
    elem_of_literal. }
  destruct (status_is node "idle") as [[]|]; cbn; try done.
  { intros (v & ->)%incr_inv. right. exists "idle", v. split; [|done].
    elem_of_literal. }
  intros [= <-]. by left.
Qed.

Lemma classify_node_Raise (st : status) node e :
  classify_node st node = Raise e ->
  exn_cls e = KeyError \/ exn_cls e = TypeError.
Proof.
  unfold classify_node.
  destruct (status_is node "held") as [[]|e1] eqn:E1; cbn;
    [apply incr_Raise| |intros [= <-]; left; by eapply status_is_Raise].
  destruct (status_is node "running") as [[]|e2] eqn:E2; cbn;
    [apply incr_Raise| |intros [= <-]; left; by eapply status_is_Raise].
  destruct (status_is node "idle") as [[]|e3] eqn:E3; cbn;
    [apply incr_Raise|done|intros [= <-]; left; by eapply status_is_Raise].
Qed.

Lemma classify_nodes_other (nodes : list classad) (st st' : status) k :
  classify_nodes st nodes = Ok st' -> k ∉ details -> st' !! k = st !! k.
Proof.
  revert st. induction nodes as [|node nodes IH]; intros st; cbn.
  - by intros [= <-].
  - destruct (classify_node st node) as [st1|] eqn:E; cbn; [|done].
    intros H Hk. rewrite (IH _ H Hk).
    destruct (classify_node_inv _ _ _ E) as [->|(key & v & Hkey & ->)]; [done|].
    apply lookup_insert_ne. by intros ->.
Qed.

Lemma classify_nodes_Raise (nodes : list classad) (st : status) e :
  classify_nodes st nodes = Raise e ->
  exn_cls e = KeyError \/ exn_cls e = TypeError.
Proof.
  revert st. induction nodes as [|node nodes IH]; intros st; cbn; [done|].
  destruct (classify_node st node) as [st1|e1] eqn:E; cbn.
  - apply IH.
  - intros [= <-]. by eapply classify_node_Raise.
Qed.

(** A node is counted in the counter of its state, and in that one only. *)
Lemma classify_node_Ok (st : status) node h r i :
  is_Some (node !! "JobStatus") ->
  st !! "held" = Some (VInt h) ->
  st !! "running" = Some (VInt r) ->
  st !! "idle" = Some (VInt i) ->
  exists st',
    classify_node st node = Ok st' /\
    st' !! "held" = Some (VInt (h + indicator (has_status 5 node))) /\
    st' !! "running" = Some (VInt (r + indicator (has_status 2 node))) /\
    st' !! "idle" = Some (VInt (i + indicator (has_status 1 node))).
Proof.
  intros Hjs Hh Hr Hi. unfold classify_node.
  rewrite (status_is_has_status _ _ _ Hjs JOB_STATUS_MAP_held).
  rewrite (status_is_has_status _ _ _ Hjs JOB_STATUS_MAP_running).
  rewrite (status_is_has_status _ _ _ Hjs JOB_STATUS_MAP_idle).
  cbn [mbind result_bind Py.bind].
  destruct (has_status 5 node) eqn:E5.
  { rewrite (has_status_exclusive 5 2), (has_status_exclusive 5 1) by done.
    rewrite (incr_Ok _ _ _ Hh). eexists; split; [done|].
    rewrite lookup_insert_eq, !lookup_insert_ne by done.
    cbn [indicator]. rewrite !Z.add_0_r. done. }
  destruct (has_status 2 node) eqn:E2.
  { rewrite (has_status_exclusive 2 1) by done.
    rewrite (incr_Ok _ _ _ Hr). eexists; split; [done|].
    rewrite lookup_insert_eq, !lookup_insert_ne by done.
    cbn [indicator]. rewrite !Z.add_0_r. done. }
  destruct (has_status 1 node) eqn:E1.
  { rewrite (incr_Ok _ _ _ Hi). eexists; split; [done|].
    rewrite lookup_insert_eq, !lookup_insert_ne by done.
    cbn [indicator]. rewrite !Z.add_0_r. done. }
  eexists; split; [done|]. cbn [indicator]. rewrite !Z.add_0_r. done.
Qed.

(** The loop over the nodes: each detail counter is advanced by the number
    of nodes in its state. *)
Lemma classify_nodes_Ok (nodes : list classad) (st : status) h r i :
  Forall (fun node => is_Some (node !! "JobStatus")) nodes ->
  st !! "held" = Some (VInt h) ->
  st !! "running" = Some (VInt r) ->
  st !! "idle" = Some (VInt i) ->
  exists st',
    classify_nodes st nodes = Ok st' /\
    st' !! "held" = Some (VInt (h + count_status 5 nodes)) /\
    st' !! "running" = Some (VInt (r + count_status 2 nodes)) /\
    st' !! "idle" = Some (VInt (i + count_status 1 nodes)).
Proof.
  intros Hall. revert st h r i.
  induction Hall as [|node nodes Hjs _ IH]; intros st h r i Hh Hr Hi.
  - exists st. unfold count_status. cbn. rewrite !Z.add_0_r. done.
  - destruct (classify_node_Ok st node h r i Hjs Hh Hr Hi)
      as (st1 & E & Hh1 & Hr1 & Hi1).
    destruct (IH st1 _ _ _ Hh1 Hr1 Hi1) as (st' & E' & Hh' & Hr' & Hi').
    exists st'. cbn [classify_nodes]. rewrite E. cbn [mbind result_bind Py.bind].
    rewrite !count_status_cons, !Z.add_assoc. done.
Qed.

(** The states counted in the detail counters exclude one another, so the
    three counts together are at most the number of nodes. *)
Lemma count_status_sum (nodes : list classad) :
  count_status 5 nodes + count_status 2 nodes + count_status 1 nodes
  <= Z.of_nat (List.length nodes).
Proof.
  induction nodes as [|node nodes IH].
  - unfold count_status. cbn. lia.
  - rewrite !count_status_cons. cbn [List.length].
    destruct (has_status 5 node) eqn:E5.
    { rewrite (has_status_exclusive 5 2), (has_status_exclusive 5 1) by done.
      cbn [indicator]. lia. }
    destruct (has_status 2 node) eqn:E2.
    { rewrite (has_status_exclusive 2 1) by done. cbn [indicator]. lia. }
    destruct (has_status 1 node); cbn [indicator]; lia.
Qed.

Lemma project_lookup (attrs : list string) (ad : classad) (k : string) :
  k ∈ attrs -> project attrs ad !! k = ad !! k.
Proof.
  intros Hk. destruct attrs as [|a attrs]; [done|].
  cbn [project]. destruct (ad !! k) as [v|] eqn:E.
  - by apply map_lookup_filter_Some.
  - apply map_lookup_filter_None. left. done.
Qed.

Lemma project_dag_record (raw : classad) :
  dag_record raw -> dag_record (project (classads ++ ["ExitCode"])%list raw) /\
                    dag_record (project classads raw).
Proof.
  unfold dag_record. rewrite !Forall_forall. intros H.
  split; intros c Hc; rewrite project_lookup; auto.
  apply elem_of_app. by left.
Qed.

Lemma get_dag_status_live id s detailed raw rest :
  live_records id s = raw :: rest ->
  get_dag_status id s detailed =
    st ← counters_of (project classads raw);
    if detailed then
      classify_nodes
        (<["idle" := VInt 0]> (<["running" := VInt 0]> (<["held" := VInt 0]> st)))
        (node_records id s)
    else Ok st.
Proof.
  unfold live_records, node_records, get_dag_status, query. intros ->.
  change (map (project []) ?l) with (map (fun ad : classad => ad) l).
  rewrite map_id. reflexivity.
Qed.

Lemma get_dag_status_past id s detailed :
  live_records id s = [] ->
  get_dag_status id s detailed =
    job ← Py.index0 (take 1 (map (project (classads ++ ["ExitCode"])%list)
                                (past_records id s)));
    history ← counters_of job;
    ec ← Py.getitem job "ExitCode";
    Ok (<["exitcode" := ec]> history).
Proof.
  unfold live_records, past_records, get_dag_status, query, history.
  intros ->. reflexivity.
Qed.

Lemma dag_record_counters (job : classad) :
  dag_record job ->
  exists n1 n2 n3 n4 n5 n6,
    counters_of job =
      Ok (six (VInt n1) (VInt n2) (VInt n3) (VInt n4) (VInt n5) (VInt n6)) /\
    job !! "DAG_NodesTotal" = Some (VInt n1) /\
    job !! "DAG_NodesDone" = Some (VInt n2) /\
    job !! "DAG_NodesQueued" = Some (VInt n3) /\
    job !! "DAG_NodesReady" = Some (VInt n4) /\
    job !! "DAG_NodesUnready" = Some (VInt n5) /\
    job !! "DAG_NodesFailed" = Some (VInt n6) /\
    0 <= n1 /\ 0 <= n2 /\ 0 <= n3 /\ 0 <= n4 /\ 0 <= n5 /\ 0 <= n6.
Proof.
  unfold dag_record. rewrite classads_unfold. intros H.
  repeat match type of H with
         | Forall _ (_ :: _) => apply Forall_cons in H; destruct H as [(? & ? & ?) H]
         end.
  do 6 eexists. split; [|repeat split; eassumption].
  apply counters_of_Ok. do 6 eexists. repeat split; eassumption.
Qed.

Ltac lookup_six :=
  unfold six;
  repeat first [ rewrite lookup_insert_eq
               | rewrite lookup_insert_ne by done
               | rewrite lookup_empty ].

Lemma six_other v1 v2 v3 v4 v5 v6 k :
  k ∉ states -> six v1 v2 v3 v4 v5 v6 !! k = None.
Proof.
  unfold states. intros Hk. unfold six.
  repeat (rewrite lookup_insert_ne; [|intros <-; apply Hk; elem_of_literal]).
  apply lookup_empty.
Qed.

(** C1, as stated, fails: a cluster id with a record in the live queue
    that is not the record of a DAG (the job 4900, a node of another DAG,
    holds none of the six node counters) gets no record at all:
    [get_dag_status] raises [KeyError] for the first counter, whatever
    [detailed] is. *)
Lemma get_dag_status_live_not_a_dag :
  live_records 4900 Demo.live = [Demo.node_ad 4900 4899 2] /\
  get_dag_status 4900 Demo.live true =
    Raise (mk_exn KeyError "DAG_NodesTotal") /\
  get_dag_status 4900 Demo.live false =
    Raise (mk_exn KeyError "DAG_NodesTotal").
Proof. split; [reflexivity|]. split; by vm_compute. Qed.

(** C1 (amended): when the record of the cluster id in the live queue is
    the record of a DAG (it holds the six node counters as non-negative
    integers) and, if [detailed] is asked for, the jobs of the DAG hold
    their [JobStatus], [get_dag_status] returns a record in which the six
    base counters are present, as the non-negative integers of the record of
    the queue, [exitcode] is absent, and [held], [running] and [idle] are
    present if and only if [detailed] is asked for. *)
Theorem get_dag_status_live_record (id : Z) (s : Schedd) (detailed : bool)
    (raw : classad) (rest : list classad) :
  live_records id s = raw :: rest ->
  dag_record raw ->
  (detailed = true ->
   Forall (fun node => is_Some (node !! "JobStatus")) (node_records id s)) ->
  exists st,
    get_dag_status id s detailed = Ok st /\
    (forall (i : nat) (name attr : string),
        states !! i = Some name -> classads !! i = Some attr ->
        exists n, st !! name = Some (VInt n) /\ raw !! attr = Some (VInt n) /\ 0 <= n) /\
    st !! "exitcode" = None /\
    (forall k, k ∈ details ->
        (is_Some (st !! k) <-> detailed = true) /\
        (forall v, st !! k = Some v -> exists n, v = VInt n /\ 0 <= n)).
Proof.
  intros Hlive Hraw Hnodes.
  rewrite (get_dag_status_live _ _ _ _ _ Hlive).
  destruct (dag_record_counters _ (proj2 (project_dag_record _ Hraw)))
    as (n1 & n2 & n3 & n4 & n5 & n6 & -> & H1 & H2 & H3 & H4 & H5 & H6 & Hpos).
  rewrite !project_lookup in H1, H2, H3, H4, H5, H6
    by (rewrite classads_unfold; elem_of_literal).
  cbn [mbind result_bind Py.bind].
  set (st0 := six _ _ _ _ _ _).
  assert (Hbase : forall (i : nat) name attr,
             states !! i = Some name -> classads !! i = Some attr ->
             exists n, st0 !! name = Some (VInt n) /\
                       raw !! attr = Some (VInt n) /\ 0 <= n).
  { intros i name attr Hn Ha. rewrite classads_unfold in Ha. unfold states in Hn.
    do 6 (destruct i as [|i];
          [injection Hn as <-; injection Ha as <-; eexists;
           split; [subst st0; lookup_six; reflexivity|split; [eassumption|lia]]|]).
    discriminate Hn. }
  destruct detailed.
  - destruct (classify_nodes_Ok (node_records id s)
                (<["idle" := VInt 0]> (<["running" := VInt 0]>
                   (<["held" := VInt 0]> st0))) 0 0 0 (Hnodes eq_refl))
      as (st & E & Hh & Hr & Hi).
    { by rewrite !lookup_insert_ne, lookup_insert_eq by done. }
    { by rewrite lookup_insert_ne, lookup_insert_eq by done. }
    { by rewrite lookup_insert_eq. }
    exists st. split; [done|].
    assert (Hother : forall k, k ∉ details -> st !! k = st0 !! k).
    { intros k Hk. rewrite (classify_nodes_other _ _ _ k E Hk).
      rewrite !lookup_insert_ne; [done|intros <-; apply Hk; elem_of_literal..]. }
    split; [|split].
    + intros i name attr Hn Ha. destruct (Hbase i name attr Hn Ha) as (n & Hst & ?).
      exists n. split; [|done]. rewrite Hother; [done|].
      unfold states in Hn.
      do 6 (destruct i as [|i]; [injection Hn as <-; not_elem_of_literal|]).
      discriminate Hn.
    + rewrite Hother by not_elem_of_literal.
      apply six_other. not_elem_of_literal.
    + intros k Hk. unfold details in Hk.
      pose proof (count_status_bounds 5 (node_records id s)).
      pose proof (count_status_bounds 2 (node_records id s)).
      pose proof (count_status_bounds 1 (node_records id s)).
      apply elem_of_cons in Hk as [->|Hk]; [|apply elem_of_cons in Hk as [->|Hk];
        [|apply list_elem_of_singleton in Hk as ->]].
      * rewrite Hh. split; [by split|]. intros v [= <-]. eexists; split; [done|lia].
      * rewrite Hr. split; [by split|]. intros v [= <-]. eexists; split; [done|lia].
      * rewrite Hi. split; [by split|]. intros v [= <-]. eexists; split; [done|lia].
  - exists st0. split; [done|]. split; [done|]. split.
    + apply six_other. not_elem_of_literal.
    + intros k Hk.
      assert (st0 !! k = None) as ->.
      { apply six_other. unfold details in Hk.
        repeat (apply elem_of_cons in Hk as [->|Hk]; [not_elem_of_literal|]).
        by apply not_elem_of_nil in Hk. }
      split; [|done]. split; [by intros []|done].
Qed.

Lemma get_dag_status_exitcode_live id s detailed raw rest st :
  live_records id s = raw :: rest ->
  get_dag_status id s detailed = Ok st -> st !! "exitcode" = None.
Proof.
  intros Hlive. rewrite (get_dag_status_live _ _ _ _ _ Hlive).
  destruct (counters_of (project classads raw)) as [st0|] eqn:E; [|done].
  apply counters_of_Ok in E
    as (v1 & v2 & v3 & v4 & v5 & v6 & _ & _ & _ & _ & _ & _ & ->).
  cbn [mbind result_bind Py.bind]. destruct detailed.
  - intros H. rewrite (classify_nodes_other _ _ _ "exitcode" H)
      by not_elem_of_literal.
    rewrite !lookup_insert_ne by done. apply six_other. not_elem_of_literal.
  - intros [= <-]. apply six_other. not_elem_of_literal.
Qed.

Lemma get_dag_status_exitcode_past id s detailed st :
  live_records id s = [] ->
  get_dag_status id s detailed = Ok st -> is_Some (st !! "exitcode").
Proof.
  intros Hlive. rewrite (get_dag_status_past _ _ _ Hlive).
  destruct (Py.index0 _) as [job|]; [|done]. cbn [mbind result_bind Py.bind].
  destruct (counters_of job) as [h|]; [|done]. cbn [mbind result_bind Py.bind].
  destruct (Py.getitem job "ExitCode") as [ec|]; [|done].
  cbn [mbind result_bind Py.bind]. intros [= <-].
  rewrite lookup_insert_eq. by eexists.
Qed.



(** C4: [get_dag_status] fails with [IndexError], the error of a cluster
    id without any record, exactly when the cluster id has a record neither
    in the live queue nor in the history; the error reaches the caller, and
    an empty live queue alone, with a record in the history, gives a result
    and no error. *)
Theorem get_dag_status_unknown (id : Z) (s : Schedd) (detailed : bool) :
  (live_records id s = [] /\ past_records id s = [] <->
   exists e, get_dag_status id s detailed = Raise e /\ exn_cls e = IndexError) /\
  (live_records id s = [] -> past_records id s = [] ->
   get_dag_status id s detailed =
     Raise (mk_exn IndexError "list index out of range")).
Proof.
  assert (Hboth : live_records id s = [] -> past_records id s = [] ->
                  get_dag_status id s detailed =
                    Raise (mk_exn IndexError "list index out of range")).
  { intros Hlive Hpast. rewrite (get_dag_status_past _ _ _ Hlive), Hpast.
    reflexivity. }
  split; [|done]. split.
  - intros [Hlive Hpast]. eexists. split; [by apply Hboth|done].
  - intros (e & He & Hcls).
    destruct (live_records id s) as [|raw rest] eqn:Hlive.
    + split; [done|]. rewrite (get_dag_status_past _ _ _ Hlive) in He.
      destruct (past_records id s) as [|old older]; [done|].
      cbn [map take Py.index0 mbind result_bind Py.bind] in He.
      destruct (counters_of _) as [h|e1] eqn:E1;
        cbn [mbind result_bind Py.bind] in He.
      * unfold Py.getitem in He. destruct (_ !! "ExitCode"); [done|].
        injection He as <-. discriminate Hcls.
      * injection He as <-. apply counters_of_Raise in E1. congruence.
    + rewrite (get_dag_status_live _ _ _ _ _ Hlive) in He.
      destruct (counters_of _) as [st0|e1] eqn:E1;
        cbn [mbind result_bind Py.bind] in He.
      * destruct detailed; [|done].
        apply classify_nodes_Raise in He as [He|He]; congruence.
      * injection He as <-. apply counters_of_Raise in E1. congruence.
Qed.

(** C8: in a live DAG with [detailed] asked for, [held], [running] and
    [idle] start from zero and each node that the detail query returns adds
    one to the counter of its state when that state is Held (5), Running (2)
    or Idle (1), and to no counter otherwise: each counter is the number of
    nodes in its state, is not negative, and the three together are at most
    the number of nodes returned. *)
Theorem get_dag_status_details (id : Z) (s : Schedd) (raw : classad)
    (rest : list classad) :
  live_records id s = raw :: rest ->
  dag_record raw ->
  Forall (fun node => is_Some (node !! "JobStatus")) (node_records id s) ->
  exists (st : status) (held running idle : Z),
    get_dag_status id s true = Ok st /\
    st !! "held" = Some (VInt held) /\
    st !! "running" = Some (VInt running) /\
    st !! "idle" = Some (VInt idle) /\
    held = count_status 5 (node_records id s) /\
    running = count_status 2 (node_records id s) /\
    idle = count_status 1 (node_records id s) /\
    0 <= held /\ 0 <= running /\ 0 <= idle /\
    held + running + idle <= Z.of_nat (List.length (node_records id s)) /\
    (forall node, node ∈ node_records id s ->
       has_status 5 node = false -> has_status 2 node = false ->
       has_status 1 node = false ->
       forall st0, classify_node st0 node = Ok st0).
Proof.
  intros Hlive Hraw Hnodes.
  rewrite (get_dag_status_live _ _ _ _ _ Hlive).
  destruct (dag_record_counters _ (proj2 (project_dag_record _ Hraw)))
    as (n1 & n2 & n3 & n4 & n5 & n6 & -> & _).
  cbn [mbind result_bind Py.bind].
  destruct (classify_nodes_Ok (node_records id s)
              (<["idle" := VInt 0]> (<["running" := VInt 0]>
                 (<["held" := VInt 0]> (six (VInt n1) (VInt n2) (VInt n3)
                                            (VInt n4) (VInt n5) (VInt n6)))))
              0 0 0 Hnodes)
    as (st & E & Hh & Hr & Hi).
  { by rewrite !lookup_insert_ne, lookup_insert_eq by done. }
  { by rewrite lookup_insert_ne, lookup_insert_eq by done. }
  { by rewrite lookup_insert_eq. }
  pose proof (count_status_bounds 5 (node_records id s)).
  pose proof (count_status_bounds 2 (node_records id s)).
  pose proof (count_status_bounds 1 (node_records id s)).
  pose proof (count_status_sum (node_records id s)).
  exists st, (count_status 5 (node_records id s)),
    (count_status 2 (node_records id s)), (count_status 1 (node_records id s)).
  repeat (split; [first [done | lia]|]).
  intros node Hnode Hheld Hrunning Hidle st0.
  rewrite Forall_forall in Hnodes. specialize (Hnodes node Hnode).
  unfold classify_node.
  rewrite (status_is_has_status _ _ _ Hnodes JOB_STATUS_MAP_held), Hheld.
  rewrite (status_is_has_status _ _ _ Hnodes JOB_STATUS_MAP_running), Hrunning.
  rewrite (status_is_has_status _ _ _ Hnodes JOB_STATUS_MAP_idle), Hidle.
  reflexivity.
Qed.

(** ** [iterate_dag_status] *)

Lemma get_dag_status_live_returns id s :
  live_in id s ->
  exists st, get_dag_status id s true = Ok st /\ st !! "exitcode" = None.
Proof.
  intros (raw & rest & Hlive & Hraw & Hnodes).
  assert (exists st, get_dag_status id s true = Ok st) as [st Hst].
  { rewrite (get_dag_status_live _ _ _ _ _ Hlive).
    destruct (dag_record_counters _ (proj2 (project_dag_record _ Hraw)))
      as (n1 & n2 & n3 & n4 & n5 & n6 & -> & _).
    cbn [mbind result_bind Py.bind].
    edestruct (classify_nodes_Ok (node_records id s)) as (st & E & _);
      [exact Hnodes| | | |by exists st].
    - by rewrite !lookup_insert_ne, lookup_insert_eq by done.
    - by rewrite lookup_insert_ne, lookup_insert_eq by done.
    - by rewrite lookup_insert_eq. }
  exists st. split; [done|]. by eapply get_dag_status_exitcode_live.
Qed.

Lemma get_dag_status_past_returns id s detailed :
  finished_in id s ->
  exists st, get_dag_status id s detailed = Ok st /\ is_Some (st !! "exitcode").
Proof.
  intros (Hlive & raw & older & Hpast & Hraw & [ec Hec]).
  assert (exists st, get_dag_status id s detailed = Ok st) as [st Hst].
  { rewrite (get_dag_status_past _ _ _ Hlive), Hpast.
    cbn [map take Py.index0 mbind result_bind Py.bind].
    destruct (dag_record_counters _ (proj1 (project_dag_record _ Hraw)))
      as (n1 & n2 & n3 & n4 & n5 & n6 & -> & _).
    cbn [mbind result_bind Py.bind]. unfold Py.getitem.
    rewrite project_lookup by (rewrite classads_unfold; elem_of_literal).
    rewrite Hec. by eexists. }
  exists st. split; [done|]. by eapply get_dag_status_exitcode_past.
Qed.

Module GenFacts.
Import Gen.

Section polling.
Context (limit : Z) (conn : Connection) (id interval : Z).


Lemma next_ready g :
  0 <= interval <= limit -> ready g ->
  next limit conn id interval g = poll conn id (next_tick g).
Proof.
  intros Hi. destruct g as [|st t|]; cbn [ready next next_tick]; [done| |done].
  intros Hst. rewrite bool_decide_eq_false_2 by (rewrite Hst; by intros []).
  by rewrite (sleep_Ok _ _ Hi).
Qed.

Lemma next_over g : over g -> next limit conn id interval g = (StopIteration, Exhausted).
Proof.
  destruct g as [|st t|]; cbn [over next]; [done| |done].
  intros Hst. by rewrite bool_decide_eq_true_2.
Qed.





(** A DAG that runs for [m] more observations and has finished at the next
    one gives [m] snapshots without exit code and a last one with it. *)
Lemma drain_finishes (m : nat) :
  0 <= interval <= limit ->
  forall (g : frame) (fuel : nat),
    ready g ->
    (forall k, (next_tick g <= k < next_tick g + m)%nat -> live_in id (conn k)) ->
    finished_in id (conn (next_tick g + m)%nat) ->
    (m + 2 <= fuel)%nat ->
    exists sts final,
      drain fuel limit conn id interval g = ((sts ++ [final])%list, Stopped) /\
      List.length sts = m /\
      Forall (fun st => st !! "exitcode" = None) sts /\
      is_Some (final !! "exitcode").
Proof.
  intros Hi. induction m as [|m IH]; intros g fuel Hg Hlive Hdone Hfuel.
  - destruct fuel as [|[|fuel]]; [lia..|].
    rewrite Nat.add_0_r in Hdone.
    destruct (get_dag_status_past_returns _ _ true Hdone) as (st & Hst & Hec).
    exists [], st. cbn [drain]. rewrite (next_ready _ Hi Hg). unfold poll.
    rewrite Hst. rewrite (next_over (Suspended st _) Hec). done.
  - destruct fuel as [|fuel]; [lia|].
    destruct (get_dag_status_live_returns _ _ (Hlive (next_tick g) ltac:(lia)))
      as (st & Hst & Hec).
    destruct (IH (Suspended st (next_tick g)) fuel Hec) as (sts & final & E & Hlen & Hall & Hfin).
    + intros k Hk. cbn [next_tick] in Hk. apply Hlive. lia.
    + cbn [next_tick]. by replace (S (next_tick g) + m)%nat
        with (next_tick g + S m)%nat by lia.
    + lia.
    + exists (st :: sts), final. cbn [drain]. rewrite (next_ready _ Hi Hg).
      unfold poll. rewrite Hst, E. cbn. split; [done|]. split; [by f_equal|].
      split; [by constructor|done].
Qed.

End polling.
End GenFacts.




(** ** [find_rescue_dag] *)

Lemma insert_sorted_elem x y xs : y ∈ Str.insert_sorted x xs <-> y = x \/ y ∈ xs.
Proof.
  induction xs as [|z xs IH]; cbn.
  - rewrite list_elem_of_singleton, elem_of_nil. tauto.
  - destruct (String.leb x z).
    + by rewrite elem_of_cons.
    + rewrite !elem_of_cons, IH. tauto.
Qed.

Lemma sorted_elem y xs : y ∈ Str.sorted xs <-> y ∈ xs.
Proof.
  induction xs as [|x xs IH]; cbn; [done|].
  by rewrite insert_sorted_elem, elem_of_cons, IH.
Qed.

Lemma matches_literal (cs : string) (rest : list Glob.tok) (s : string) :
  Glob.matches (map Glob.TLit (list_ascii_of_string cs) ++ rest)%list s = true ->
  exists s', s = cs ++ s' /\ Glob.matches rest s' = true.
Proof.
  revert s. induction cs as [|c cs IH]; intros s; cbn.
  - by exists s.
  - destruct s as [|d s]; [done|]. intros [Hc Hm]%andb_true_iff.
    apply Ascii.eqb_eq in Hc as <-. destruct (IH _ Hm) as (s' & -> & Hs').
    by exists s'.
Qed.

Lemma matches_set neg rs (rest : list Glob.tok) (s : string) :
  Glob.matches (Glob.TSet neg rs :: rest) s = true ->
  exists d s', s = String d s' /\ xorb neg (Glob.in_ranges d rs) = true /\
               Glob.matches rest s' = true.
Proof.
  destruct s as [|d s']; cbn [Glob.matches]; [done|].
  intros [Hd Hm]%andb_true_iff. by exists d, s'.
Qed.

Lemma rescue_pattern_compiled :
  Glob.compile "%s.rescue[0-9][0-9][0-9]" =
    (map Glob.TLit (list_ascii_of_string "%s.rescue") ++
     [ Glob.TSet false [("0"%char, "9"%char)];
       Glob.TSet false [("0"%char, "9"%char)];
       Glob.TSet false [("0"%char, "9"%char)] ])%list.
Proof. reflexivity. Qed.

Lemma glob_elem (pattern : string) (fs : FS) (p : string) :
  p ∈ Glob.glob pattern fs -> p ∈ fs /\ Glob.fnmatch p pattern = true.
Proof.
  unfold Glob.glob. intros [Hm Hp]%list_elem_of_filter. split; [|done].
  destruct (Glob.hidden pattern); [done|].
  by apply list_elem_of_filter in Hp as [_ Hp].
Qed.

Lemma fnmatch_rescue (p : string) :
  Glob.fnmatch p "%s.rescue[0-9][0-9][0-9]" = true ->
  exists nnn, p = "%s.rescue" ++ nnn /\ String.length nnn = 3%nat.
Proof.
  unfold Glob.fnmatch. rewrite rescue_pattern_compiled.
  intros (nnn & -> & Hm)%matches_literal. exists nnn. split; [done|].
  apply matches_set in Hm as (a & s1 & -> & _ & Hm).
  apply matches_set in Hm as (b & s2 & -> & _ & Hm).
  apply matches_set in Hm as (c & s3 & -> & _ & Hm).
  destruct s3; [reflexivity|discriminate Hm].
Qed.

Lemma find_rescue_dag_Ok dagfile fs p :
  find_rescue_dag dagfile fs = Ok p ->
  p ∈ fs /\ exists nnn, p = "%s.rescue" ++ nnn /\ String.length nnn = 3%nat.
Proof.
  unfold find_rescue_dag, Py.index_last, Py.try_except.
  generalize (Glob.glob "%s.rescue[0-9][0-9][0-9]" fs) (glob_elem "%s.rescue[0-9][0-9][0-9]" fs p).
  intros names Hnames.
  destruct (last (Str.sorted names)) as [q|] eqn:El; [|done]. intros [= ->].
  apply last_Some_elem_of in El. apply (proj1 (sorted_elem _ _)) in El.
  destruct (Hnames El) as [Hfs Hm]. split; [done|]. by apply fnmatch_rescue.
Qed.

(** ** [submit_dag] *)

Module ReFacts.
Import Re.

#[local] Arguments String.append : simpl nomatch.

Lemma eat_lit c p s r :
  eat (Lit c :: p) s = Some r <-> exists s', s = String c s' /\ eat p s' = Some r.
Proof.
  destruct s as [|d s]; cbn.
  - split; [done|]. by intros (s' & ? & _).
  - destruct (Ascii.eqb c d) eqn:E.
    + apply Ascii.eqb_eq in E as <-. split; [by exists s|].
      by intros (s' & [= <-] & ?).
    + split; [done|]. intros (s' & [= <- <-] & _).
      by rewrite Ascii.eqb_refl in E.
Qed.

Lemma eat_space p s r :
  eat (Space :: p) s = Some r <->
  exists w s', s = String w s' /\ Str.is_space w = true /\ eat p s' = Some r.
Proof.
  destruct s as [|d s]; cbn.
  - split; [done|]. by intros (w & s' & ? & _).
  - destruct (Str.is_space d) eqn:E.
    + split; [by exists d, s|]. by intros (w & s' & [= <- <-] & _ & ?).
    + split; [done|]. intros (w & s' & [= <- <-] & Hw & _). congruence.
Qed.

Lemma eat_phrase s r :
  eat phrase s = Some r <->
  exists w1 w2,
    s = "submitted" ++ String w1 ("to" ++ String w2 ("cluster " ++ r)) /\
    Str.is_space w1 = true /\ Str.is_space w2 = true.
Proof.
  unfold phrase. cbn [lits list_ascii_of_string map app].
  repeat setoid_rewrite eat_lit. setoid_rewrite eat_space.
  repeat setoid_rewrite eat_lit. setoid_rewrite eat_space.
  repeat setoid_rewrite eat_lit. cbn [eat]. split.
  - intros (? & -> & ? & -> & ? & -> & ? & -> & ? & -> & ? & -> & ? & -> & ? &
            -> & ? & -> & w1 & ? & -> & H1 & ? & -> & ? & -> & w2 & ? & -> & H2 &
            ? & -> & ? & -> & ? & -> & ? & -> & ? & -> & ? & -> & ? & -> & ? &
            -> & [= ->]).
    by exists w1, w2.
  - intros (w1 & w2 & -> & H1 & H2). cbn.
    repeat (eexists; split; [reflexivity|]).
    eexists _, _. split; [reflexivity|]. split; [done|].
    repeat (eexists; split; [reflexivity|]).
    eexists _, _. split; [reflexivity|]. split; [done|].
    repeat (eexists; split; [reflexivity|]). done.
Qed.

Lemma digits_head s :
  digits s <> EmptyString <->
  exists d rest, s = String d rest /\ Str.is_digit d = true.
Proof.
  destruct s as [|c s]; cbn.
  - split; [done|]. by intros (d & rest & ? & _).
  - destruct (Str.is_digit c) eqn:E.
    + split; [by exists c, s|done].
    + split; [done|]. intros (d & rest & [= <- <-] & Hd). congruence.
Qed.


Lemma match_here_marker s :
  (exists ds, match_here s = Some ds) <-> marker_here s.
Proof.
  unfold match_here, marker_here. split.
  - intros [ds H]. destruct (eat phrase s) as [r|] eqn:E; [|done].
    apply eat_phrase in E as (w1 & w2 & -> & H1 & H2).
    assert (Hd : digits r <> EmptyString) by (by destruct (digits r)).
    apply digits_head in Hd as (d & rest & -> & Hd).
    by exists w1, w2, d, rest.
  - intros (w1 & w2 & d & rest & -> & H1 & H2 & Hd).
    assert (E : eat phrase
                  ("submitted" ++ String w1 ("to" ++ String w2 ("cluster " ++ String d rest)))
                = Some (String d rest)).
    { apply eat_phrase. by exists w1, w2. }
    rewrite E. cbn [digits]. rewrite Hd. by eexists.
Qed.

Lemma match_here_None s : match_here s = None <-> ~ marker_here s.
Proof.
  rewrite <- match_here_marker. destruct (match_here s) as [ds|].
  - split; [done|]. intros H. destruct H. by exists ds.
  - split; [|done]. by intros _ [ds ?].
Qed.

(** The search finds nothing exactly in an output without the marker. *)
Lemma search_None out : search out = None <-> ~ has_marker out.
Proof.
  unfold has_marker. induction out as [|c out IH].
  - cbn [search]. split.
    + intros H (pre & s & E & Hs). destruct pre; [|done]. cbn in E. subst s.
      apply match_here_marker in Hs as [ds Hs]. by rewrite Hs in H.
    + intros H. destruct (match_here "") eqn:E; [|done].
      destruct H. exists "", "". split; [done|].
      apply match_here_marker. by eexists.
  - cbn [search]. split.
    + intros H (pre & s & E & Hs).
      destruct (match_here (String c out)) as [ds|] eqn:Em; [done|].
      destruct pre as [|c' pre]; cbn in E.
      * subst s. apply match_here_marker in Hs as [ds Hs]. congruence.
      * injection E as <- ->. apply IH in H. apply H. by exists pre, s.
    + intros H. destruct (match_here (String c out)) as [ds|] eqn:Em.
      * destruct H. exists "", (String c out). split; [done|].
        apply match_here_marker. by eexists.
      * apply IH. intros (pre & s & -> & Hs). apply H.
        by exists (String c pre), s.
Qed.






End ReFacts.

Lemma submit_dag_unfold env dagfile force exe :
  which env "condor_submit_dag" = Ok exe ->
  submit_dag env dagfile force =
    out ← shell env (submit_command exe dagfile force);
    match Re.search out with
    | Some m => Ok (Str.int m)
    | None =>
        Raise (mk_exn AttributeError
                 "Failed to extract DAG cluster ID from condor_submit_dag output")
    end.
Proof.
  intros Hw. unfold submit_dag, submit_command. rewrite Hw.
  cbn [mbind result_bind Py.bind].
  replace (if force then ([exe] ++ ["-force"])%list else [exe])
    with (exe :: (if force then ["-force"] else [])) by by destruct force.
  destruct (shell env _) as [out|e]; [|done].
  cbn [mbind result_bind Py.bind].
  destruct (Re.search out); reflexivity.
Qed.


(** ** [monitor_dag] *)


Section monitor.
Context (limit : Z) (world : World) (lock : string) (interval : Z).

Lemma stat_present fs : lock ∈ fs -> Os.stat fs lock = Ok ().
Proof. intros H. unfold Os.stat. by rewrite bool_decide_eq_true_2. Qed.

Lemma stat_absent fs :
  lock ∉ fs ->
  Os.stat fs lock = Raise (mk_exn OSError "[Errno 2] No such file or directory").
Proof. intros H. unfold Os.stat. by rewrite bool_decide_eq_false_2. Qed.


(** The loop is left by [break] or by a refused [sleep], in no other way. *)
Lemma monitor_loop_raises fuel tick tr e tr' :
  monitor_loop fuel limit world lock interval tick tr = Some (Raise e, tr') ->
  exn_cls e = IOError /\ interval < 0 \/
  exn_cls e = OverflowError /\ limit < interval.
Proof.
  revert tick tr. induction fuel as [|fuel IH]; intros tick tr; [done|].
  cbn [monitor_loop].
  destruct (Os.sleep limit interval) as [[]|e0] eqn:Es.
  - unfold Os.stat. case_bool_decide; [apply IH|]. by cbn.
  - intros [= <- _]. by apply sleep_Raise.
Qed.

End monitor.

(** C9: when the lock file [<dagfile>.lock] does not exist at the call,
    [monitor_dag] raises [OSError] from its first [stat], before any sleep
    and any further observation, whatever the interval is; it does not
    return as for a DAG that is complete. *)
Theorem monitor_dag_lock_absent (fuel : nat) (limit : Z) (world : World)
    (dagfile : string) (interval : Z) :
  dagfile ++ ".lock" ∉ world O ->
  monitor_dag fuel limit world dagfile interval =
    Some (Raise (mk_exn OSError "[Errno 2] No such file or directory"),
          [EvStat (dagfile ++ ".lock")]) /\
  sleeps [EvStat (dagfile ++ ".lock")] = O.
Proof.
  intros Hgone. unfold monitor_dag. by rewrite (stat_absent _ _ Hgone).
Qed.



(** C5: [find_rescue_dag] globs the pattern ['%s.rescue[0-9][0-9][0-9]']
    as it is written, the DAG file path is never put in the place of [%s]:
    with [foo.dag.rescue001], [foo.dag.rescue002] and [foo.dag.rescue010] in
    the directory it raises [IndexError] for [foo.dag], where the claim has
    [foo.dag.rescue010]; what it finds are the names of the form
    [%s.rescueNNN], and its result is the same for every DAG file. *)
Theorem find_rescue_dag_pattern_not_formatted :
  find_rescue_dag "foo.dag"
    [ "foo.dag.rescue001"; "foo.dag.rescue002"; "foo.dag.rescue010" ] =
    Raise (mk_exn IndexError "No rescue DAG files found") /\
  find_rescue_dag "foo.dag"
    [ "%s.rescue002"; "%s.rescue010"; "foo.dag.rescue011"; "%s.rescue001" ] =
    Ok "%s.rescue010" /\
  find_rescue_dag "foo.dag" [] =
    Raise (mk_exn IndexError "No rescue DAG files found") /\
  (forall dagfile dagfile' fs,
      find_rescue_dag dagfile fs = find_rescue_dag dagfile' fs).
Proof.
  split; [by vm_compute|split; [by vm_compute|split; [by vm_compute|]]].
  reflexivity.
Qed.

(** ** The properties at the sample inputs *)

Lemma demo_dag_record cluster total done queued :
  0 <= total -> 0 <= done -> 0 <= queued -> 0 <= total - done - queued ->
  dag_record (Demo.dag_ad cluster total done queued).
Proof.
  intros. unfold dag_record. rewrite classads_unfold.
  unfold Demo.dag_ad, Py.dict. cbn [foldl fst snd].
  repeat (apply Forall_cons; split;
          [eexists; split;
           [repeat (rewrite lookup_insert_ne by done);
            rewrite lookup_insert_eq; reflexivity|lia]|]).
  constructor.
Defined.

Lemma demo_live_records :
  live_records 4821 Demo.live = [Demo.dag_ad 4821 10 3 4].
Proof. reflexivity. Defined.

Lemma demo_live_nodes :
  Forall (fun node : classad => is_Some (node !! "JobStatus"))
    (node_records 4821 Demo.live).
Proof.
  change (node_records 4821 Demo.live)
    with [ Demo.node_ad 4822 4821 2; Demo.node_ad 4823 4821 1;
           Demo.node_ad 4824 4821 5; Demo.node_ad 4825 4821 2;
           Demo.node_ad 4826 4821 4 ].
  repeat (apply Forall_cons; split; [eexists; reflexivity|]).
  constructor.
Defined.

Lemma demo_live_in : live_in 4821 Demo.live.
Proof.
  exists (Demo.dag_ad 4821 10 3 4), []. split; [exact demo_live_records|].
  split; [apply demo_dag_record; lia|exact demo_live_nodes].
Defined.

Lemma demo_finished_in : finished_in 4821 Demo.finished.
Proof.
  split; [reflexivity|].
  exists (<["ExitCode" := VInt 0]> (Demo.dag_ad 4821 10 10 0)), [].
  split; [reflexivity|]. split; [|eexists; reflexivity].
  unfold dag_record. rewrite classads_unfold.
  repeat (apply Forall_cons; split;
          [eexists; split; [rewrite lookup_insert_ne by done; reflexivity|lia]|]).
  constructor.
Defined.

Lemma get_dag_status_live_record_witness :
  exists st,
    get_dag_status 4821 Demo.live true = Ok st /\
    st !! "exitcode" = None /\
    (is_Some (st !! "held") <-> true = true).
Proof.
  destruct (get_dag_status_live_record 4821 Demo.live true
              (Demo.dag_ad 4821 10 3 4) [])
    as (st & Hst & _ & Hec & Hdet).
  - exact demo_live_records.
  - apply demo_dag_record; lia.
  - intros _. exact demo_live_nodes.
  - exists st. split; [exact Hst|]. split; [exact Hec|].
    apply (Hdet "held"). apply list_elem_of_here.
Defined.



Lemma get_dag_status_unknown_witness :
  get_dag_status 1 Demo.finished true =
    Raise (mk_exn IndexError "list index out of range").
Proof.
  apply (proj2 (get_dag_status_unknown 1 Demo.finished true)); reflexivity.
Defined.


Lemma get_dag_status_details_witness :
  exists st,
    get_dag_status 4821 Demo.live true = Ok st /\
    st !! "held" = Some (VInt 1) /\
    st !! "running" = Some (VInt 2) /\
    st !! "idle" = Some (VInt 1).
Proof.
  destruct (get_dag_status_details 4821 Demo.live (Demo.dag_ad 4821 10 3 4) [])
    as (st & h & r & i & Hst & Hh & Hr & Hi & -> & -> & -> & _).
  - exact demo_live_records.
  - apply demo_dag_record; lia.
  - exact demo_live_nodes.
  - exists st. split; [exact Hst|]. split; [exact Hh|]. split; [exact Hr|exact Hi].
Defined.

Lemma monitor_dag_lock_absent_witness :
  monitor_dag 10 Demo.clock_limit (fun _ => [ "foo.dag" ]) "foo.dag" 5 =
    Some (Raise (mk_exn OSError "[Errno 2] No such file or directory"),
          [EvStat "foo.dag.lock"]).
Proof.
  apply (monitor_dag_lock_absent 10 Demo.clock_limit (fun _ => [ "foo.dag" ])
           "foo.dag" 5).
  intros H. apply list_elem_of_In in H. vm_compute in H.
  destruct H as [H|[]]. discriminate H.
Defined.


(** * Further properties *)

(** ** [get_dag_status]: errors and what the result depends on *)

Lemma counters_of_missing (job : classad) (attr : string) :
  attr ∈ classads -> job !! attr = None ->
  exists c, c ∈ classads /\ job !! c = None /\
            counters_of job = Raise (mk_exn KeyError c).
Proof.
  rewrite classads_unfold. intros Hattr Hnone.
  unfold counters_of. rewrite classads_unfold. unfold states, Py.getitem.
  cbn [zip zip_with Py.for_each mbind result_bind Py.bind fst snd].
  repeat match goal with
         | |- context [job !! ?k] =>
             destruct (job !! k) eqn:?;
             [|exists k; split; [elem_of_literal|split; [assumption|reflexivity]]]
         end.
  exfalso.
  repeat (apply elem_of_cons in Hattr as [->|Hattr]; [congruence|]).
  by apply not_elem_of_nil in Hattr.
Qed.

(** A cluster id whose record in the queue lacks one of the six node
    counters (the record of a job that is not a DAG) makes [get_dag_status]
    raise [KeyError] with the name of a missing attribute, whatever
    [detailed] is; the history is not looked at. *)
Theorem get_dag_status_missing_counter (id : Z) (s : Schedd) (detailed : bool)
    (raw : classad) (rest : list classad) (attr : string) :
  live_records id s = raw :: rest ->
  attr ∈ classads -> raw !! attr = None ->
  exists c,
    c ∈ classads /\ raw !! c = None /\
    get_dag_status id s detailed = Raise (mk_exn KeyError c).
Proof.
  intros Hlive Hattr Hnone. rewrite (get_dag_status_live _ _ _ _ _ Hlive).
  destruct (counters_of_missing (project classads raw) attr Hattr)
    as (c & Hc & Hcn & E).
  { by rewrite project_lookup. }
  exists c. rewrite project_lookup in Hcn by done. by rewrite E.
Qed.

Lemma get_dag_status_missing_counter_witness :
  exists c, get_dag_status 4900 Demo.live true = Raise (mk_exn KeyError c).
Proof.
  destruct (get_dag_status_missing_counter 4900 Demo.live true
              (Demo.node_ad 4900 4899 2) [] "DAG_NodesDone")
    as (c & _ & _ & E).
  - reflexivity.
  - rewrite classads_unfold. apply list_elem_of_further, list_elem_of_here.
  - reflexivity.
  - by exists c.
Defined.

(** While the queue holds a record of the cluster id, the history is not
    consulted: the result is the same with any other history. *)
Theorem get_dag_status_live_ignores_history (id : Z)
    (q p p' : list classad) (detailed : bool) :
  matching (AttrEq "ClusterId" id) q <> [] ->
  get_dag_status id {| queue := q; past := p |} detailed =
  get_dag_status id {| queue := q; past := p' |} detailed.
Proof.
  intros Hq.
  destruct (matching (AttrEq "ClusterId" id) q) as [|raw rest] eqn:E; [done|].
  by rewrite (get_dag_status_live id {| queue := q; past := p |} detailed raw rest),
    (get_dag_status_live id {| queue := q; past := p' |} detailed raw rest).
Qed.

Lemma get_dag_status_live_ignores_history_witness :
  get_dag_status 4821 {| queue := queue Demo.live; past := past Demo.finished |} true =
  get_dag_status 4821 Demo.live true.
Proof.
  apply (get_dag_status_live_ignores_history 4821 (queue Demo.live)
           (past Demo.finished) (past Demo.live) true).
  discriminate.
Defined.

(** The record without details is the record with details without its
    three detail counters: asking for the details changes nothing else. *)
Theorem get_dag_status_without_details (id : Z) (s : Schedd) (st : status) :
  get_dag_status id s true = Ok st ->
  get_dag_status id s false =
    Ok (delete "held" (delete "running" (delete "idle" st))).
Proof.
  destruct (live_records id s) as [|raw rest] eqn:Hlive.
  - rewrite !(get_dag_status_past _ _ _ Hlive).
    destruct (Py.index0 _) as [job|]; [|done]. cbn [mbind result_bind Py.bind].
    destruct (counters_of job) as [h|] eqn:E; [|done].
    apply counters_of_Ok in E
      as (v1 & v2 & v3 & v4 & v5 & v6 & _ & _ & _ & _ & _ & _ & ->).
    cbn [mbind result_bind Py.bind].
    destruct (Py.getitem job "ExitCode") as [ec|]; [|done].
    cbn [mbind result_bind Py.bind]. intros [= <-]. reflexivity.
  - rewrite !(get_dag_status_live _ _ _ _ _ Hlive).
    destruct (counters_of _) as [st0|] eqn:E; [|done].
    apply counters_of_Ok in E
      as (v1 & v2 & v3 & v4 & v5 & v6 & _ & _ & _ & _ & _ & _ & ->).
    cbn [mbind result_bind Py.bind]. intros H. f_equal. apply map_eq. intros k.
    destruct (decide (k ∈ details)) as [Hk|Hk].
    + unfold details in Hk.
      assert (six v1 v2 v3 v4 v5 v6 !! k = None) as ->.
      { apply six_other.
        repeat (apply elem_of_cons in Hk as [->|Hk]; [not_elem_of_literal|]).
        by apply not_elem_of_nil in Hk. }
      symmetry.
      repeat (apply elem_of_cons in Hk as [->|Hk];
              [by rewrite ?lookup_delete_eq, ?lookup_delete_ne, ?lookup_delete_eq by done|]).
      by apply not_elem_of_nil in Hk.
    + rewrite !lookup_delete_ne by (intros <-; apply Hk; elem_of_literal).
      rewrite (classify_nodes_other _ _ _ k H Hk).
      by rewrite !lookup_insert_ne by (intros <-; apply Hk; elem_of_literal).
Qed.

Lemma get_dag_status_without_details_witness :
  exists st,
    get_dag_status 4821 Demo.live true = Ok st /\
    get_dag_status 4821 Demo.live false =
      Ok (delete "held" (delete "running" (delete "idle" st))).
Proof.
  destruct (get_dag_status_live_returns 4821 Demo.live demo_live_in)
    as (st & Hst & _).
  exists st. split; [exact Hst|].
  exact (get_dag_status_without_details 4821 Demo.live st Hst).
Defined.

(** ** [iterate_dag_status]: what is yielded, errors, and a DAG that stays *)

Module GenMore.
Import Gen.

Section polling.
Context (limit : Z) (conn : Connection) (id interval : Z).

(** A snapshot that [next()] yields is the status at the next observation. *)
Lemma next_yields_poll g st g' :
  next limit conn id interval g = (Yield st, g') ->
  g' = Suspended st (next_tick g) /\
  get_dag_status id (conn (next_tick g)) true = Ok st.
Proof.
  assert (Hpoll : forall t, poll conn id t = (Yield st, g') ->
                            g' = Suspended st t /\
                            get_dag_status id (conn t) true = Ok st).
  { intros t. unfold poll. destruct (get_dag_status _ _ _); [|done].
    by intros [= <- <-]. }
  destruct g as [|st0 t|]; cbn [next next_tick]; [apply Hpoll| |done].
  case_bool_decide; [done|]. destruct (Os.sleep limit interval); [apply Hpoll|done].
Qed.

Lemma drain_polls fuel g sts e :
  drain fuel limit conn id interval g = (sts, e) ->
  forall (k : nat) st,
    sts !! k = Some st ->
    get_dag_status id (conn (next_tick g + k)%nat) true = Ok st.
Proof.
  revert g sts e. induction fuel as [|fuel IH]; intros g sts e.
  { cbn. by intros [= <- <-] []. }
  cbn [drain]. destruct (next limit conn id interval g) as [[st| |e1] g'] eqn:E;
    [|by intros [= <- <-] []..].
  destruct (next_yields_poll _ _ _ E) as [-> Hst].
  destruct (drain fuel limit conn id interval _) as [sts' e'] eqn:E'.
  intros [= <- <-] [|k] st1; cbn.
  - intros [= <-]. by rewrite Nat.add_0_r.
  - intros Hk. pose proof (IH _ _ _ E' k st1 Hk) as H. cbn [next_tick] in H.
    by replace (next_tick g + S k)%nat with (S (next_tick g) + k)%nat by lia.
Qed.

(** While the DAG stays in the queue, every [next()] yields. *)
Lemma drain_runs (fuel : nat) :
  0 <= interval <= limit ->
  (forall k, live_in id (conn k)) ->
  forall g, ready g ->
    exists sts,
      drain fuel limit conn id interval g = (sts, Running) /\
      List.length sts = fuel /\
      Forall (fun st => st !! "exitcode" = None) sts.
Proof.
  intros Hi Hlive. induction fuel as [|fuel IH]; intros g Hg.
  { by exists []. }
  destruct (get_dag_status_live_returns _ _ (Hlive (next_tick g)))
    as (st & Hst & Hec).
  destruct (IH (Suspended st (next_tick g)) Hec) as (sts & E & Hlen & Hall).
  exists (st :: sts). cbn [drain].
  rewrite (GenFacts.next_ready limit conn id interval g Hi Hg). unfold poll.
  rewrite Hst, E. cbn. split; [done|]. split; [by f_equal|by constructor].
Qed.

(** An error of the query at the observation that follows [m] observations
    of the running DAG ends the iteration with that error. *)
Lemma drain_fails (m : nat) (e : exn) :
  0 <= interval <= limit ->
  forall (g : frame) (fuel : nat),
    ready g ->
    (forall k, (next_tick g <= k < next_tick g + m)%nat -> live_in id (conn k)) ->
    get_dag_status id (conn (next_tick g + m)%nat) true = Raise e ->
    (m < fuel)%nat ->
    exists sts,
      drain fuel limit conn id interval g = (sts, Failed e) /\
      List.length sts = m /\
      Forall (fun st => st !! "exitcode" = None) sts.
Proof.
  intros Hi. induction m as [|m IH]; intros g fuel Hg Hlive Herr Hfuel;
    (destruct fuel as [|fuel]; [lia|]).
  - rewrite Nat.add_0_r in Herr. exists []. cbn [drain].
    rewrite (GenFacts.next_ready limit conn id interval g Hi Hg). unfold poll.
    by rewrite Herr.
  - destruct (get_dag_status_live_returns _ _ (Hlive (next_tick g) ltac:(lia)))
      as (st & Hst & Hec).
    destruct (IH (Suspended st (next_tick g)) fuel Hec) as (sts & E & Hlen & Hall).
    + intros k Hk. cbn [next_tick] in Hk. apply Hlive. lia.
    + cbn [next_tick]. by replace (S (next_tick g) + m)%nat
        with (next_tick g + S m)%nat by lia.
    + lia.
    + exists (st :: sts). cbn [drain].
      rewrite (GenFacts.next_ready limit conn id interval g Hi Hg). unfold poll.
      rewrite Hst, E. cbn. split; [done|]. split; [by f_equal|by constructor].
Qed.

End polling.
End GenMore.

(** The [k]-th snapshot that [iterate_dag_status] yields is the detailed
    status of the DAG at the [k]-th observation of the scheduler, for every
    interval and however the iteration ends. *)
Theorem iterate_dag_status_snapshots (limit : Z) (conn : Connection)
    (id interval : Z) (fuel : nat) (sts : list status) (e : Gen.ending) :
  iterate_dag_status fuel limit conn id interval = (sts, e) ->
  forall (k : nat) st,
    sts !! k = Some st -> get_dag_status id (conn k) true = Ok st.
Proof.
  intros E k st Hk.
  exact (GenMore.drain_polls limit conn id interval fuel Gen.Created sts e E k st Hk).
Qed.

Lemma iterate_dag_status_snapshots_witness :
  exists final,
    get_dag_status 4821 (Demo.script 3%nat) true = Ok final /\
    is_Some (final !! "exitcode").
Proof.
  destruct (GenFacts.drain_finishes Demo.clock_limit Demo.script 4821 2 3%nat
              ltac:(unfold Demo.clock_limit; lia) Gen.Created 5%nat)
    as (sts & final & E & Hlen & _ & Hfin).
  - exact I.
  - intros k Hk. cbn in Hk.
    do 3 (destruct k as [|k]; [exact demo_live_in|]). lia.
  - exact demo_finished_in.
  - lia.
  - exists final. split; [|exact Hfin].
    apply (iterate_dag_status_snapshots Demo.clock_limit Demo.script 4821 2 5%nat
             (sts ++ [final])%list Gen.Stopped E 3%nat final).
    rewrite lookup_app_r, Hlen by lia. reflexivity.
Defined.

(** A DAG that stays in the queue is polled for ever, when the interval is
    one that [sleep] takes (not negative and within the limit of the clock):
    however many snapshots are asked for, that many are yielded, none with
    an exit code, and the iteration has not stopped. *)
Theorem iterate_dag_status_never_stops (limit : Z) (conn : Connection)
    (id interval : Z) (fuel : nat) :
  0 <= interval <= limit ->
  (forall k, live_in id (conn k)) ->
  exists sts,
    iterate_dag_status fuel limit conn id interval = (sts, Gen.Running) /\
    List.length sts = fuel /\
    Forall (fun st => st !! "exitcode" = None) sts.
Proof.
  intros Hi Hlive.
  exact (GenMore.drain_runs limit conn id interval fuel Hi Hlive Gen.Created I).
Qed.

Lemma iterate_dag_status_never_stops_witness :
  exists sts,
    iterate_dag_status 7%nat Demo.clock_limit (fun _ => Demo.live) 4821 2 =
      (sts, Gen.Running) /\
    List.length sts = 7%nat.
Proof.
  destruct (iterate_dag_status_never_stops Demo.clock_limit (fun _ => Demo.live)
              4821 2 7%nat)
    as (sts & E & Hlen & _).
  - unfold Demo.clock_limit. lia.
  - intros k. exact demo_live_in.
  - exists sts. split; [exact E|exact Hlen].
Defined.

(** When the interval is one that [sleep] takes (not negative and within
    the limit of the clock) and the query fails at the observation that
    follows [n] observations of the running DAG (with [IndexError] when the
    DAG has left the queue without a record in the history), the iteration
    yields the [n] snapshots and then raises that error: no error of the
    query is caught. *)
Theorem iterate_dag_status_error (limit : Z) (conn : Connection)
    (id interval : Z) (n fuel : nat) (e : exn) :
  0 <= interval <= limit ->
  (forall k, (k < n)%nat -> live_in id (conn k)) ->
  get_dag_status id (conn n) true = Raise e ->
  (n < fuel)%nat ->
  exists sts,
    iterate_dag_status fuel limit conn id interval = (sts, Gen.Failed e) /\
    List.length sts = n /\
    Forall (fun st => st !! "exitcode" = None) sts.
Proof.
  intros Hi Hlive Herr Hfuel.
  apply (GenMore.drain_fails limit conn id interval n e Hi Gen.Created fuel);
    [exact I| |exact Herr|exact Hfuel].
  intros k Hk. apply Hlive. cbn in Hk. lia.
Qed.

Lemma iterate_dag_status_error_witness :
  iterate_dag_status 3%nat Demo.clock_limit (fun _ => Demo.finished) 1 2 =
    ([], Gen.Failed (mk_exn IndexError "list index out of range")).
Proof.
  destruct (iterate_dag_status_error Demo.clock_limit (fun _ => Demo.finished)
              1 2 0%nat 3%nat
              (mk_exn IndexError "list index out of range"))
    as (sts & E & Hlen & _).
  - unfold Demo.clock_limit. lia.
  - intros k Hk. lia.
  - reflexivity.
  - lia.
  - destruct sts; [exact E|discriminate Hlen].
Defined.

(** ** [monitor_dag]: a lock that stays *)

Lemma monitor_loop_runs limit world lock interval fuel :
  0 <= interval <= limit ->
  (forall k, lock ∈ world k) ->
  forall tick tr, monitor_loop fuel limit world lock interval tick tr = None.
Proof.
  intros Hi Hlock. induction fuel as [|fuel IH]; intros tick tr; [done|].
  cbn [monitor_loop]. rewrite (sleep_Ok _ _ Hi).
  rewrite (stat_present _ _ (Hlock (S tick))). apply IH.
Qed.

(** While the lock file stays, and when the interval is one that [sleep]
    takes (not negative and within the limit of the clock), [monitor_dag]
    does not return: no number of rounds of the loop brings it to an end,
    neither with a result nor with an error. *)
Theorem monitor_dag_lock_stays (fuel : nat) (limit : Z) (world : World)
    (dagfile : string) (interval : Z) :
  0 <= interval <= limit ->
  (forall k, dagfile ++ ".lock" ∈ world k) ->
  monitor_dag fuel limit world dagfile interval = None.
Proof.
  intros Hi Hlock. unfold monitor_dag.
  rewrite (stat_present _ _ (Hlock O)).
  by rewrite (monitor_loop_runs limit world _ interval fuel Hi Hlock).
Qed.

Lemma monitor_dag_lock_stays_witness :
  monitor_dag 25%nat Demo.clock_limit (fun _ => [ "foo.dag"; "foo.dag.lock" ])
    "foo.dag" 5 = None.
Proof.
  apply (monitor_dag_lock_stays 25%nat Demo.clock_limit (fun _ => [ "foo.dag"; "foo.dag.lock" ])
           "foo.dag" 5).
  - unfold Demo.clock_limit. lia.
  - intros k. apply list_elem_of_In. vm_compute. tauto.
Defined.

(** ** [find_rescue_dag]: what is found *)

Lemma in_ranges_digit d :
  Glob.in_ranges d [("0"%char, "9"%char)] = Str.is_digit d.
Proof.
  unfold Glob.in_ranges, Str.is_digit. cbn [existsb fst snd].
  by rewrite orb_false_r.
Qed.

Lemma fnmatch_rescue_name (p : string) :
  Glob.fnmatch p "%s.rescue[0-9][0-9][0-9]" = true <-> rescue_name p.
Proof.
  unfold Glob.fnmatch, rescue_name. rewrite rescue_pattern_compiled. split.
  - intros (nnn & -> & Hm)%matches_literal.
    apply matches_set in Hm as (a & s1 & -> & Ha & Hm).
    apply matches_set in Hm as (b & s2 & -> & Hb & Hm).
    apply matches_set in Hm as (c & s3 & -> & Hc & Hm).
    destruct s3; [|discriminate Hm].
    rewrite xorb_false_l, in_ranges_digit in Ha, Hb, Hc.
    by exists a, b, c.
  - intros (a & b & c & -> & Ha & Hb & Hc).
    change (Glob.matches
              (map Glob.TLit (list_ascii_of_string "%s.rescue") ++ _)%list
              ("%s.rescue" ++ _))
      with (xorb false (Glob.in_ranges a [("0"%char, "9"%char)]) &&
            (xorb false (Glob.in_ranges b [("0"%char, "9"%char)]) &&
             (xorb false (Glob.in_ranges c [("0"%char, "9"%char)]) && true))).
    by rewrite !xorb_false_l, !in_ranges_digit, Ha, Hb, Hc.
Qed.

Lemma rescue_name_not_hidden p : rescue_name p -> Glob.hidden p = false.
Proof. by intros (a & b & c & -> & _). Qed.

Lemma glob_rescue (fs : FS) (p : string) :
  p ∈ Glob.glob "%s.rescue[0-9][0-9][0-9]" fs <-> p ∈ fs /\ rescue_name p.
Proof.
  rewrite <- fnmatch_rescue_name. split; [apply glob_elem|].
  intros [Hp Hm]. unfold Glob.glob.
  change (Glob.hidden "%s.rescue[0-9][0-9][0-9]") with false. cbv iota.
  apply list_elem_of_filter. split; [done|]. apply list_elem_of_filter.
  split; [|done]. by apply rescue_name_not_hidden, fnmatch_rescue_name.
Qed.

Lemma insert_sorted_sorted x xs :
  StronglySorted String.le xs -> StronglySorted String.le (Str.insert_sorted x xs).
Proof.
  induction xs as [|y xs IH]; cbn [Str.insert_sorted].
  - intros _. by repeat constructor.
  - intros [Hy Hxs]%StronglySorted_cons.
    destruct (String.leb x y) eqn:E.
    + apply StronglySorted_cons. split; [|by apply StronglySorted_cons].
      apply Is_true_true in E. constructor; [done|].
      eapply Forall_impl; [exact Hy|]. intros z Hz. by etrans.
    + apply StronglySorted_cons. split; [|by apply IH].
      apply Forall_forall. intros z [->|Hz]%insert_sorted_elem.
      * destruct (total String.le x y) as [H|H]; [|done].
        apply Is_true_true in H. congruence.
      * rewrite Forall_forall in Hy. by apply Hy.
Qed.

Lemma sorted_sorted xs : StronglySorted String.le (Str.sorted xs).
Proof.
  induction xs as [|x xs IH]; cbn; [constructor|]. by apply insert_sorted_sorted.
Qed.

(** [sorted(xs)[-1]] is a greatest element of [xs]. *)
Lemma sorted_last_greatest xs p :
  last (Str.sorted xs) = Some p ->
  p ∈ xs /\ forall q, q ∈ xs -> String.leb q p = true.
Proof.
  intros Hl. split.
  { apply last_Some_elem_of in Hl. by apply (proj1 (sorted_elem _ _)). }
  intros q Hq. apply (proj2 (sorted_elem _ _)) in Hq.
  pose proof (sorted_sorted xs) as Hs.
  apply last_Some in Hl as [l' El]. rewrite El in Hs, Hq.
  apply elem_of_app in Hq as [Hq|Hq%list_elem_of_singleton].
  - apply Is_true_true.
    eapply (StronglySorted_app_1_elem_of String.le); [exact Hs|done|].
    apply list_elem_of_here.
  - subst q. apply Is_true_true. change (String.le p p). done.
Qed.

(** What [find_rescue_dag] returns is, among the names of the directory of
    the form [%s.rescueNNN], a greatest one in the byte-wise order; it is
    found as soon as the directory has such a name, and without one the
    error is [IndexError] with the message of the function. *)
Theorem find_rescue_dag_greatest (dagfile : string) (fs : FS) :
  (forall p,
      find_rescue_dag dagfile fs = Ok p ->
      p ∈ fs /\ rescue_name p /\
      forall q, q ∈ fs -> rescue_name q -> String.leb q p = true) /\
  (forall q, q ∈ fs -> rescue_name q ->
      exists p, find_rescue_dag dagfile fs = Ok p) /\
  ((forall q, q ∈ fs -> ~ rescue_name q) ->
      find_rescue_dag dagfile fs =
        Raise (mk_exn IndexError "No rescue DAG files found")).
Proof.
  unfold find_rescue_dag, Py.index_last, Py.try_except.
  pose proof (glob_rescue fs) as Hglob.
  revert Hglob. generalize (Glob.glob "%s.rescue[0-9][0-9][0-9]" fs).
  intros names Hnames.
  destruct (last (Str.sorted names)) as [p0|] eqn:El.
  - apply sorted_last_greatest in El as [Hp0 Hmax].
    split; [|split].
    + intros p [= <-]. apply Hnames in Hp0 as [Hfs Hname].
      split; [done|]. split; [done|]. intros q Hq Hqn. apply Hmax.
      by apply Hnames.
    + intros q _ _. by exists p0.
    + intros Hnone. apply Hnames in Hp0 as [Hfs Hname]. by destruct (Hnone p0).
  - apply last_None in El.
    assert (names = []) as ->.
    { destruct names as [|x xs]; [done|].
      assert (x ∈ Str.sorted (x :: xs)) as Hx
        by (apply sorted_elem, list_elem_of_here).
      rewrite El in Hx. by apply not_elem_of_nil in Hx. }
    split; [done|]. split; [|done].
    intros q Hq Hqn. assert (q ∈ []) as Hnil by (by apply Hnames).
    by apply not_elem_of_nil in Hnil.
Qed.

Lemma find_rescue_dag_greatest_witness :
  exists p,
    find_rescue_dag "foo.dag" [ "%s.rescue002"; "foo.dag"; "%s.rescue010" ] = Ok p /\
    String.leb "%s.rescue002" p = true.
Proof.
  destruct (proj1 (proj2 (find_rescue_dag_greatest "foo.dag"
                            [ "%s.rescue002"; "foo.dag"; "%s.rescue010" ]))
              "%s.rescue002") as [p Hp].
  - apply list_elem_of_here.
  - exists "0"%char, "0"%char, "2"%char. repeat split; reflexivity.
  - exists p. split; [exact Hp|].
    apply (proj1 (find_rescue_dag_greatest "foo.dag"
                    [ "%s.rescue002"; "foo.dag"; "%s.rescue010" ]) p Hp).
    + apply list_elem_of_here.
    + exists "0"%char, "0"%char, "2"%char. repeat split; reflexivity.
Defined.

(** The result does not depend on the order in which the directory is
    listed. *)
Theorem find_rescue_dag_order (dagfile : string) (fs fs' : FS) :
  fs ≡ₚ fs' -> find_rescue_dag dagfile fs = find_rescue_dag dagfile fs'.
Proof.
  intros Hperm.
  destruct (find_rescue_dag_greatest dagfile fs) as (Ha & Hb & Hc).
  destruct (find_rescue_dag_greatest dagfile fs') as (Ha' & Hb' & Hc').
  destruct (find_rescue_dag dagfile fs) as [p|e].
  - destruct (Ha p eq_refl) as (Hp & Hpn & Hmax).
    destruct (Hb' p) as [p' E']; [by rewrite <- Hperm|done|].
    rewrite E'. destruct (Ha' p' E') as (Hp' & Hpn' & Hmax').
    f_equal. apply String.leb_antisym.
    + apply Hmax'; [by rewrite <- Hperm|done].
    + apply Hmax; [by rewrite Hperm|done].
  - assert (Hnone : forall q, q ∈ fs -> ~ rescue_name q).
    { intros q Hq Hqn. by destruct (Hb q Hq Hqn). }
    rewrite (Hc Hnone). symmetry. apply Hc'.
    intros q Hq. apply Hnone. by rewrite Hperm.
Qed.

Lemma find_rescue_dag_order_witness :
  find_rescue_dag "foo.dag" [ "%s.rescue002"; "%s.rescue010" ] =
  find_rescue_dag "foo.dag" [ "%s.rescue010"; "%s.rescue002" ].
Proof.
  apply (find_rescue_dag_order "foo.dag" [ "%s.rescue002"; "%s.rescue010" ]
           [ "%s.rescue010"; "%s.rescue002" ]).
  apply Permutation_swap.
Defined.

(** ** [submit_dag]: what a result and an error tell *)

Module ReMore.
Import Re.

#[local] Arguments String.append : simpl nomatch.

Lemma digits_split s :
  exists rest, s = digits s ++ rest /\ all_digits (digits s) /\ no_digit_ahead rest.
Proof.
  unfold all_digits. induction s as [|c s (rest & E & Hd & Hr)].
  - exists "". cbn. split; [done|]. split; [constructor|done].
  - cbn [digits]. destruct (Str.is_digit c) eqn:Ec.
    + exists rest. cbn. split; [by rewrite <- E|]. split; [by constructor|done].
    + exists (String c s). cbn. split; [done|]. split; [constructor|done].
Qed.

Lemma match_here_Some s ds :
  match_here s = Some ds ->
  exists w1 w2 rest,
    s = "submitted" ++ String w1 ("to" ++ String w2 ("cluster " ++ ds ++ rest)) /\
    Str.is_space w1 = true /\ Str.is_space w2 = true /\
    all_digits ds /\ ds <> EmptyString /\ no_digit_ahead rest.
Proof.
  unfold match_here. destruct (eat phrase s) as [r|] eqn:E; [|done].
  apply ReFacts.eat_phrase in E as (w1 & w2 & -> & H1 & H2).
  destruct (digits_split r) as (rest & Er & Hd & Hr).
  destruct (digits r) as [|d ds'] eqn:Ed; [done|]. intros [= <-].
  exists w1, w2, rest. by rewrite <- Er.
Qed.

Lemma search_Some_inv out ds :
  search out = Some ds -> exists pre s, out = pre ++ s /\ match_here s = Some ds.
Proof.
  induction out as [|c out IH]; cbn [search].
  - destruct (match_here "") as [ds'|] eqn:E; [|done]. intros [= <-].
    by exists "", "".
  - destruct (match_here (String c out)) as [ds'|] eqn:E.
    + intros [= <-]. by exists "", (String c out).
    + intros (pre & s & -> & Hs)%IH. by exists (String c pre), s.
Qed.

Lemma int_from_nonneg acc s : 0 <= acc -> 0 <= Str.int_from acc s.
Proof.
  revert acc. induction s as [|c s IH]; intros acc Hacc; cbn [Str.int_from];
    [done|]. apply IH. lia.
Qed.

End ReMore.

(** A cluster id that [submit_dag] returns was read in the output of the
    tool: it is the value of a run of digits that follows the phrase there
    and is not followed by a digit; it is never negative. *)
Theorem submit_dag_sound (env : Tools) (dagfile : string) (force : bool) (n : Z) :
  submit_dag env dagfile force = Ok n ->
  exists exe out pre w1 w2 ds rest,
    which env "condor_submit_dag" = Ok exe /\
    shell env (submit_command exe dagfile force) = Ok out /\
    out = pre ++ "submitted" ++
          String w1 ("to" ++ String w2 ("cluster " ++ ds ++ rest)) /\
    Str.is_space w1 = true /\ Str.is_space w2 = true /\
    Re.all_digits ds /\ ds <> EmptyString /\ Re.no_digit_ahead rest /\
    n = Str.int ds /\ 0 <= n.
Proof.
  destruct (which env "condor_submit_dag") as [exe|e] eqn:Hw;
    [|by unfold submit_dag; rewrite Hw].
  rewrite (submit_dag_unfold _ _ _ _ Hw).
  destruct (shell env _) as [out|e] eqn:Hs; [|done].
  cbn [mbind result_bind Py.bind].
  destruct (Re.search out) as [m|] eqn:E; [|done]. intros [= <-].
  apply ReMore.search_Some_inv in E as (pre & s & -> & Hm).
  apply ReMore.match_here_Some in Hm
    as (w1 & w2 & rest & -> & H1 & H2 & Hd & Hne & Hr).
  eexists exe, _, pre, w1, w2, m, rest.
  repeat (split; [done|]). by apply ReMore.int_from_nonneg.
Qed.

Lemma submit_dag_sound_witness :
  exists ds, 4821 = Str.int ds /\ Re.all_digits ds.
Proof.
  destruct (submit_dag_sound (Demo.tools Demo.condor_out) "foo.dag" true 4821)
    as (exe & out & pre & w1 & w2 & ds & rest & _ & _ & _ & _ & _ & Hd & _ & _ & Hn & _).
  - vm_compute. reflexivity.
  - exists ds. split; [exact Hn|exact Hd].
Defined.

(** An error of [submit_dag] is the error of the look-up of the tool, or
    the error of the run of the tool, or, when the tool has run and its
    output is without the phrase followed by a digit, [AttributeError] with
    the message of the function: the parsing raises nothing else. *)
Theorem submit_dag_errors (env : Tools) (dagfile : string) (force : bool)
    (e : exn) :
  submit_dag env dagfile force = Raise e ->
  which env "condor_submit_dag" = Raise e \/
  exists exe,
    which env "condor_submit_dag" = Ok exe /\
    (shell env (submit_command exe dagfile force) = Raise e \/
     exists out,
       shell env (submit_command exe dagfile force) = Ok out /\
       ~ Re.has_marker out /\
       e = mk_exn AttributeError
             "Failed to extract DAG cluster ID from condor_submit_dag output").
Proof.
  destruct (which env "condor_submit_dag") as [exe|e0] eqn:Hw.
  - rewrite (submit_dag_unfold _ _ _ _ Hw). intros H. right. exists exe.
    split; [done|]. destruct (shell env _) as [out|e1] eqn:Hs.
    + right. exists out. split; [done|]. cbn [mbind result_bind Py.bind] in H.
      destruct (Re.search out) as [m|] eqn:E; [done|].
      split; [by apply ReFacts.search_None|congruence].
    + left. cbn [mbind result_bind Py.bind] in H. congruence.
  - unfold submit_dag. rewrite Hw. cbn [mbind result_bind Py.bind].
    intros H. left. congruence.
Qed.

Lemma submit_dag_errors_witness :
  exists exe out,
    which (Demo.tools "no such file") "condor_submit_dag" = Ok exe /\
    shell (Demo.tools "no such file") (submit_command exe "foo.dag" false) = Ok out /\
    ~ Re.has_marker out.
Proof.
  destruct (submit_dag_errors (Demo.tools "no such file") "foo.dag" false
              (mk_exn AttributeError
                 "Failed to extract DAG cluster ID from condor_submit_dag output"))
    as [H|(exe & Hw & [H|(out & Hs & Hm & _)])].
  - vm_compute. reflexivity.
  - discriminate H.
  - discriminate H.
  - exists exe, out. split; [exact Hw|]. split; [exact Hs|exact Hm].
Defined.

(** ** [str.replace] *)

Module ReplaceFacts.

#[local] Arguments String.append : simpl nomatch.

Lemma prefix_app old s :
  String.prefix old s = true <-> exists rest, s = old ++ rest.
Proof.
  revert s. induction old as [|c old IH]; intros s.
  - split; [|by destruct s]. intros _. by exists s.
  - destruct s as [|d s]; cbn.
    + split; [done|]. by intros [rest ?].
    + destruct (ascii_dec c d) as [->|Hne].
      * rewrite IH. split; intros [rest E]; exists rest; [by rewrite E|].
        by injection E.
      * split; [done|]. intros [rest [= ? _]]. congruence.
Qed.

Lemma length_app (a b : string) :
  String.length (a ++ b) = (String.length a + String.length b)%nat.
Proof. induction a as [|c a IH]; cbn; [done|]. by rewrite IH. Qed.

Lemma app_assoc (a b c : string) : (a ++ b) ++ c = a ++ b ++ c.
Proof. induction a as [|x a IH]; cbn; [done|]. by rewrite IH. Qed.

Lemma app_nil_r (a : string) : a ++ "" = a.
Proof. induction a as [|x a IH]; cbn; [done|]. by rewrite IH. Qed.

(** The bytes of an occurrence are passed over. *)
Lemma replace_from_skip a old new s :
  replace_from (String.length a) old new (a ++ s) = replace old new s.
Proof. induction a as [|c a IH]; cbn; [done|]. exact IH. Qed.

(** A string in which [old] does not occur is left as it is. *)
Lemma replace_absent old new s : ~ occurs old s -> replace old new s = s.
Proof.
  unfold replace. induction s as [|c s IH]; intros Hno; [done|].
  cbn [replace_from].
  destruct (String.prefix old (String c s)) eqn:E.
  - apply prefix_app in E as [rest E]. destruct Hno. by exists "", rest.
  - f_equal. apply IH. intros (a & b & ->). apply Hno. by exists (String c a), b.
Qed.

(** Whether [o] starts a string is settled by its first bytes. *)
Lemma prefix_shorter o y post :
  String.prefix o (y ++ post) = true ->
  (String.length o <= String.length y)%nat ->
  String.prefix o y = true.
Proof.
  revert y. induction o as [|c o IH]; intros y; [by destruct y|].
  destruct y as [|d y]; cbn; [lia|].
  destruct (ascii_dec c d); [|done]. intros H Hlen. apply IH; [done|lia].
Qed.

(** The first occurrence is replaced, and the replacing goes on after it. *)
Lemma replace_first old new pre post :
  old <> EmptyString ->
  (forall a b, pre ++ old = a ++ old ++ b -> b = EmptyString) ->
  replace old new (pre ++ old ++ post) = pre ++ new ++ replace old new post.
Proof.
  intros Hold. unfold replace at 1. induction pre as [|c pre IH]; intros Hfirst.
  - destruct old as [|c0 old']; [done|].
    change ("" ++ ?x) with x. change (String c0 old' ++ post)
      with (String c0 (old' ++ post)).
    cbn [replace_from].
    assert (String.prefix (String c0 old') (String c0 (old' ++ post)) = true) as ->.
    { apply prefix_app. by exists post. }
    f_equal.
    replace (String.length (String c0 old') - 1)%nat with (String.length old')
      by (cbn [String.length]; lia).
    apply replace_from_skip.
  - change (String c pre ++ ?x) with (String c (pre ++ x)). cbn [replace_from].
    destruct (String.prefix old (String c (pre ++ old ++ post))) eqn:E.
    + exfalso.
      assert (E' : String.prefix old (String c pre ++ old) = true).
      { apply (prefix_shorter _ _ post).
        - by rewrite app_assoc.
        - rewrite length_app. lia. }
      apply prefix_app in E' as [b Eb].
      assert (b = EmptyString) as ->.
      { apply (Hfirst "" b). exact Eb. }
      apply (f_equal String.length) in Eb.
      rewrite !length_app in Eb. cbn in Eb. lia.
    + f_equal. apply IH. intros a b Hab. apply (Hfirst (String c a) b).
      cbn. by rewrite Hab.
Qed.

End ReplaceFacts.

(** ** [OmicronProcessJob] *)

Module JobFacts.
Import Job.

#[local] Arguments String.append : simpl nomatch.

Lemma mark_not_shifted (x b : string) :
  Forall (fun ch => ch <> "034"%char) (list_ascii_of_string x) ->
  x <> EmptyString ->
  x ++ arguments_mark <> arguments_mark ++ b.
Proof.
  intros Hx Hne E. unfold arguments_mark in E. cbn in E.
  destruct x as [|c x]; [done|]. cbn in E. injection E as -> E.
  do 11 (destruct x as [|c x]; [discriminate E|]; cbn in E; injection E as -> E).
  destruct x as [|c x]; [discriminate E|]. cbn in E. injection E as -> E.
  cbn in Hx. do 12 (apply Forall_cons in Hx as [_ Hx]).
  apply Forall_cons in Hx as [Hq _]. done.
Qed.

(** After a text without double quote, the mark of the arguments occurs
    where it is put and not before. *)
Lemma mark_first (pre : string) :
  Forall (fun ch => ch <> "034"%char) (list_ascii_of_string pre) ->
  forall a b, pre ++ arguments_mark = a ++ arguments_mark ++ b -> b = EmptyString.
Proof.
  induction pre as [|c pre IH]; intros Hpre a b E.
  - apply (f_equal String.length) in E.
    rewrite !ReplaceFacts.length_app in E. cbn in E.
    destruct b; [done|]. cbn in E. lia.
  - cbn in Hpre. apply Forall_cons in Hpre as [Hc Hpre].
    destruct a as [|c' a].
    + exfalso. apply (mark_not_shifted (String c pre) b); [|done|exact E].
      cbn. by constructor.
    + cbn in E. injection E as -> E. by apply (IH Hpre a b).
Qed.

Section write.
Context (parent_write : Files -> result Files) (sub_file : string).

Lemma write_sub_file_unfold job files files1 c text :
  get_command job = Some c -> c <> EmptyString ->
  parent_write files = Ok files1 ->
  files1 !! sub_file = Some text ->
  write_sub_file parent_write sub_file job files =
    Ok (<[sub_file := replace arguments_mark (arguments_mark ++ " " ++ c) text]>
          files1).
Proof.
  intros Hc Hne Hw Hf. unfold write_sub_file, read. rewrite Hw, Hc.
  cbn [mbind result_bind Py.bind]. rewrite Hf.
  destruct c as [|c0 c]; [done|]. reflexivity.
Qed.

End write.
End JobFacts.

(** With a command set, [write_sub_file] puts a space and the command
    after the double quote that opens the arguments of the submit file that
    the parent has written (the arguments being the first text with a double
    quote in the file), and leaves the rest of the file and the other files
    as they are. *)
Theorem write_sub_file_command (parent_write : Job.Files -> result Job.Files)
    (sub_file : string) (job : Job.t) (files files1 : Job.Files)
    (c pre post : string) :
  Job.get_command job = Some c -> c <> EmptyString ->
  parent_write files = Ok files1 ->
  files1 !! sub_file = Some (pre ++ Job.arguments_mark ++ post) ->
  Forall (fun ch => ch <> "034"%char) (list_ascii_of_string pre) ->
  ~ occurs Job.arguments_mark post ->
  Job.write_sub_file parent_write sub_file job files =
    Ok (<[sub_file := pre ++ (Job.arguments_mark ++ " " ++ c) ++ post]> files1).
Proof.
  intros Hc Hne Hw Hf Hpre Hpost.
  rewrite (JobFacts.write_sub_file_unfold _ _ _ _ _ _ _ Hc Hne Hw Hf).
  rewrite ReplaceFacts.replace_first; [|done|by apply JobFacts.mark_first].
  by rewrite (ReplaceFacts.replace_absent _ _ post Hpost).
Qed.

(** When the submit file that the parent has written has no arguments (the
    text [arguments = ] and a double quote does not occur in it), the file is
    left as it is: the command is written nowhere, without an error. *)
Theorem write_sub_file_no_arguments
    (parent_write : Job.Files -> result Job.Files)
    (sub_file : string) (job : Job.t) (files files1 : Job.Files)
    (c text : string) :
  Job.get_command job = Some c -> c <> EmptyString ->
  parent_write files = Ok files1 ->
  files1 !! sub_file = Some text ->
  ~ occurs Job.arguments_mark text ->
  Job.write_sub_file parent_write sub_file job files = Ok files1.
Proof.
  intros Hc Hne Hw Hf Hno.
  rewrite (JobFacts.write_sub_file_unfold _ _ _ _ _ _ _ Hc Hne Hw Hf).
  rewrite (ReplaceFacts.replace_absent _ _ text Hno). unfold Job.Files in *.
  by rewrite insert_id.
Qed.

Lemma occurs_occursb old s : occurs old s -> occursb old s = true.
Proof.
  intros (a & b & ->). induction a as [|c a IH].
  - assert (String.prefix old (old ++ b) = true) as H
      by (apply ReplaceFacts.prefix_app; by exists b).
    change ("" ++ ?x) with x. destruct (old ++ b); cbn [occursb]; by rewrite H.
  - change (String c a ++ ?x) with (String c (a ++ x)). cbn [occursb].
    rewrite IH. apply orb_true_r.
Qed.

Lemma write_sub_file_command_witness :
  Job.write_sub_file
    (Demo.parent_write (Demo.sub_pre ++ Job.arguments_mark ++ Demo.sub_post))
    "omicron.sub" Demo.job_with_command ∅ =
  Ok (<["omicron.sub" :=
         Demo.sub_pre ++ (Job.arguments_mark ++ " " ++ "process") ++ Demo.sub_post]>
        (<["omicron.sub" :=
            Demo.sub_pre ++ Job.arguments_mark ++ Demo.sub_post]> ∅)).
Proof.
  apply (write_sub_file_command
           (Demo.parent_write (Demo.sub_pre ++ Job.arguments_mark ++ Demo.sub_post))
           "omicron.sub" Demo.job_with_command ∅ _ "process"
           Demo.sub_pre Demo.sub_post).
  - reflexivity.
  - discriminate.
  - reflexivity.
  - apply lookup_insert_eq.
  - vm_compute. repeat (constructor; [discriminate|]). constructor.
  - intros H%occurs_occursb. vm_compute in H. discriminate H.
Defined.

Lemma write_sub_file_no_arguments_witness :
  Job.write_sub_file (Demo.parent_write Demo.sub_pre) "omicron.sub"
    Demo.job_with_command ∅ =
  Ok (<["omicron.sub" := Demo.sub_pre]> ∅).
Proof.
  apply (write_sub_file_no_arguments (Demo.parent_write Demo.sub_pre)
           "omicron.sub" Demo.job_with_command ∅ _ "process" Demo.sub_pre).
  - reflexivity.
  - discriminate.
  - reflexivity.
  - apply lookup_insert_eq.
  - intros H%occurs_occursb. vm_compute in H. discriminate H.
Defined.

Module InitFacts.
Import Job.

#[local] Arguments String.append : simpl nomatch.

Section init.
Context (parent_has : string -> bool) (abspath : string -> string).

Abbreviation hasattr := (hasattr parent_has).
Abbreviation kwarg_call := (kwarg_call parent_has).
Abbreviation dispatch := (dispatch parent_has).
Abbreviation init := (init parent_has abspath).

Lemma dispatch_calls job k v :
  calls (dispatch job (k, v)) =
    (calls job ++ match kwarg_call k v with Some c => [c] | None => [] end)%list.
Proof.
  unfold Job.dispatch, Job.kwarg_call, call_attr, parent_call. cbn [fst snd].
  destruct (hasattr _); [|done].
  destruct (String.eqb _ "set_command"); [|done]. cbn. by rewrite app_nil_r.
Qed.

Lemma foldl_dispatch_calls (l : list (string * string)) job c :
  c ∈ calls (foldl dispatch job l) <->
  c ∈ calls job \/ exists k v, (k, v) ∈ l /\ kwarg_call k v = Some c.
Proof.
  revert job. induction l as [|[k v] l IH]; intros job; cbn [foldl].
  - split; [by left|]. intros [H|(k & v & H & _)]; [done|].
    by apply not_elem_of_nil in H.
  - rewrite IH, dispatch_calls, elem_of_app. split.
    + intros [[H|H]|(k' & v' & H & E)].
      * by left.
      * right. exists k, v. split; [apply list_elem_of_here|].
        destruct (kwarg_call k v) as [c'|]; [|by apply not_elem_of_nil in H].
        by apply list_elem_of_singleton in H as ->.
      * right. exists k', v'. split; [by apply list_elem_of_further|done].
    + intros [H|(k' & v' & H & E)]; [by left; left|].
      apply elem_of_cons in H as [[= -> ->]|H].
      * left. right. rewrite E. apply list_elem_of_here.
      * right. by exists k', v'.
Qed.

(** The calls of [__init__]: those made before the keywords, and one for
    each keyword that makes one. *)
Lemma init_calls universe executable tag subdir logdir cmds :
  exists first,
    Forall (fun c => method c ∈ first_methods) first /\
    forall c,
      c ∈ calls (init universe executable tag subdir logdir cmds) <->
      c ∈ first \/
      exists k v, setdefault_getenv cmds !! k = Some v /\ kwarg_call k v = Some c.
Proof.
  unfold Job.init. cbn [calls].
  match goal with
  | |- context [foldl _ ?j _] => set (job := j)
  end.
  exists (calls job). split.
  - subst job. unfold parent_call, first_methods.
    destruct (truthy subdir), (truthy logdir); cbn [calls app];
      repeat (constructor; [cbn [method]; elem_of_literal|]); constructor.
  - intros c. rewrite foldl_dispatch_calls.
    by setoid_rewrite elem_of_map_to_list.
Qed.

Lemma setdefault_getenv_lookup (cmds : gmap string string) k v :
  cmds !! k = Some v -> setdefault_getenv cmds !! k = Some v.
Proof.
  intros H. unfold setdefault_getenv.
  destruct (cmds !! "getenv") eqn:E; [done|].
  rewrite lookup_insert_ne; [done|]. intros <-. congruence.
Qed.

Lemma setdefault_getenv_getenv (cmds : gmap string string) v :
  setdefault_getenv cmds !! "getenv" = Some v <->
  v = default "True" (cmds !! "getenv").
Proof.
  unfold setdefault_getenv. destruct (cmds !! "getenv") as [w|] eqn:E; cbn.
  - rewrite E. split; congruence.
  - rewrite lookup_insert_eq. split; congruence.
Qed.

Lemma kwarg_call_condor_cmd k v k' v' :
  kwarg_call k' v' = Some (ParentCall "add_condor_cmd" [k; v]) <->
  k' = k /\ v' = v /\ hasattr ("set_" ++ Str.lower k) = false.
Proof.
  unfold Job.kwarg_call. split.
  - destruct (hasattr ("set_" ++ Str.lower k')) eqn:E.
    + destruct (String.eqb _ _); [done|]. cbn. by intros [=].
    + intros [= -> ->]. done.
  - intros (-> & -> & ->). done.
Qed.

Lemma add_condor_cmd_calls universe executable tag subdir logdir cmds k v :
  ParentCall "add_condor_cmd" [k; v]
    ∈ calls (init universe executable tag subdir logdir cmds) <->
  setdefault_getenv cmds !! k = Some v /\ hasattr ("set_" ++ Str.lower k) = false.
Proof.
  destruct (init_calls universe executable tag subdir logdir cmds)
    as (first & Hfirst & Hcalls).
  rewrite Hcalls. split.
  - intros [H|(k' & v' & Hl & E)].
    + rewrite Forall_forall in Hfirst. specialize (Hfirst _ H).
      cbn [method] in Hfirst. unfold first_methods in Hfirst.
      exfalso. revert Hfirst. not_elem_of_literal.
    + apply kwarg_call_condor_cmd in E as (-> & -> & E). done.
  - intros [Hl E]. right. exists k, v. split; [done|].
    by apply kwarg_call_condor_cmd.
Qed.

End init.
End InitFacts.

Section job_init.
Context (parent_has : string -> bool) (abspath : string -> string).
Context (universe executable : string) (tag subdir logdir : option string).
Context (cmds : gmap string string).

#[local] Arguments String.append : simpl nomatch.

Lemma hasattr_set (x : string) :
  Job.hasattr parent_has ("set_" ++ x) =
    String.eqb x "command" || parent_has ("set_" ++ x).
Proof.
  unfold Job.hasattr. f_equal. destruct (String.eqb x "command") eqn:E.
  - apply String.eqb_eq in E as ->. by vm_compute.
  - apply bool_decide_eq_false. intros H.
    apply elem_of_cons in H as [H|H].
    { cbn in H. injection H as ->. by rewrite String.eqb_refl in E. }
    revert H. cbn. not_elem_of_literal.
Qed.

(** The environment is passed on by default: [__init__] adds the condor
    command [getenv] with the value of the keyword [getenv], and with [True]
    when there is no keyword of this very spelling; a keyword spelled
    otherwise, [GetEnv] say, is added under its own spelling and does not
    stand for it. *)
Theorem init_getenv :
  parent_has "set_getenv" = false ->
  (forall v,
      Job.ParentCall "add_condor_cmd" ["getenv"; v]
        ∈ Job.calls (Job.init parent_has abspath universe executable tag
                       subdir logdir cmds) <->
      v = default "True" (cmds !! "getenv")) /\
  (forall k v,
      Str.lower k = "getenv" -> cmds !! k = Some v ->
      Job.ParentCall "add_condor_cmd" [k; v]
        ∈ Job.calls (Job.init parent_has abspath universe executable tag
                       subdir logdir cmds)).
Proof.
  intros Hp.
  assert (Hattr : Job.hasattr parent_has ("set_" ++ "getenv") = false).
  { rewrite hasattr_set. change ("set_" ++ "getenv") with "set_getenv".
    by rewrite Hp. }
  split.
  - intros v. rewrite InitFacts.add_condor_cmd_calls.
    rewrite InitFacts.setdefault_getenv_getenv.
    change (Str.lower "getenv") with "getenv". by split; [intros [-> _]|].
  - intros k v Hk Hv. apply InitFacts.add_condor_cmd_calls. rewrite Hk.
    split; [by apply InitFacts.setdefault_getenv_lookup|done].
Qed.

Lemma kwarg_call_keyword_call k v :
  Job.kwarg_call parent_has k v = Job.keyword_call parent_has k v.
Proof.
  unfold Job.kwarg_call, Job.keyword_call. rewrite hasattr_set.
  destruct (String.eqb (Str.lower k) "command") eqn:E; cbn [orb].
  - apply String.eqb_eq in E as ->. reflexivity.
  - assert (String.eqb ("set_" ++ Str.lower k) "set_command" = false) as ->;
      [|done].
    apply String.eqb_neq. cbn. intros [= H]. apply String.eqb_neq in E. done.
Qed.

Lemma foldl_dispatch_exact (l : list (string * string)) (job : Job.t) :
  Job.calls (foldl (Job.dispatch parent_has) job l) =
    (Job.calls job ++
     omap (fun kv => Job.keyword_call parent_has kv.1 kv.2) l)%list.
Proof.
  revert job. induction l as [|[k v] l IH]; intros job; cbn [foldl].
  - symmetry. apply app_nil_r.
  - rewrite IH, InitFacts.dispatch_calls, kwarg_call_keyword_call.
    rewrite <- app_assoc. f_equal.
    change (omap ?f ((k, v) :: l))
      with (match f (k, v) with
            | Some c => c :: omap f l
            | None => omap f l
            end).
    cbn [fst snd]. by destruct (Job.keyword_call parent_has k v).
Qed.

Lemma init_calls_keywords :
  Job.calls (Job.init parent_has abspath universe executable tag subdir
               logdir cmds) =
    (Job.first_calls abspath universe executable tag subdir logdir ++
     omap (fun kv => Job.keyword_call parent_has kv.1 kv.2)
       (map_to_list (Job.setdefault_getenv cmds)))%list.
Proof.
  unfold Job.init. cbn [Job.calls]. rewrite foldl_dispatch_exact. f_equal.
  unfold Job.first_calls, Job.parent_call.
  by destruct (Job.truthy subdir), (Job.truthy logdir).
Qed.


End job_init.

Section job_command.
Context (parent_has : string -> bool) (abspath : string -> string).
Context (universe executable : string) (tag subdir logdir : option string).

(** A keyword [command], in any casing, is lost: the new job has no
    command, and the calls that [__init__] makes on the parent with the
    keyword are the calls that it makes without it (up to the order in which
    the dictionary is gone through): its value reaches no method of the
    parent and no condor command. *)
Theorem init_command_lost (cmds : gmap string string) :
  Job.get_command (Job.init parent_has abspath universe executable tag
                     subdir logdir cmds) = None /\
  forall k v,
    Str.lower k = "command" ->
    Job.calls (Job.init parent_has abspath universe executable tag subdir
                 logdir (<[k := v]> cmds)) ≡ₚ
    Job.calls (Job.init parent_has abspath universe executable tag subdir
                 logdir (delete k cmds)).
Proof.
  split; [reflexivity|]. intros k v Hk.
  assert (Hne : k <> "getenv") by (by intros ->).
  rewrite !init_calls_keywords. apply Permutation_app_head.
  assert (Hins : Job.setdefault_getenv (<[k := v]> cmds) =
                 <[k := v]> (Job.setdefault_getenv (delete k cmds))).
  { unfold Job.setdefault_getenv.
    rewrite lookup_insert_ne, lookup_delete_ne by done.
    destruct (cmds !! "getenv").
    - by rewrite insert_delete_eq.
    - symmetry. rewrite insert_insert_ne by done.
      by rewrite insert_delete_eq. }
  rewrite Hins, map_to_list_insert.
  - change (omap ?f ((k, v) :: ?l))
      with (match f (k, v) with
            | Some c => c :: omap f l
            | None => omap f l
            end).
    cbn [fst snd]. unfold Job.keyword_call at 1.
    rewrite Hk, String.eqb_refl. reflexivity.
  - unfold Job.setdefault_getenv. destruct (delete k cmds !! "getenv").
    + apply lookup_delete_eq.
    + rewrite lookup_insert_ne by done. apply lookup_delete_eq.
Qed.

End job_command.


Lemma init_getenv_witness :
  Job.ParentCall "add_condor_cmd" ["getenv"; "True"]
    ∈ Job.calls (Job.init Demo.parent_has (fun p => "/cwd/" ++ p) "vanilla"
                   "/usr/bin/omicron" None None None Demo.keywords) /\
  Job.ParentCall "add_condor_cmd" ["GetEnv"; "False"]
    ∈ Job.calls (Job.init Demo.parent_has (fun p => "/cwd/" ++ p) "vanilla"
                   "/usr/bin/omicron" None None None Demo.keywords).
Proof.
  destruct (init_getenv Demo.parent_has (fun p => "/cwd/" ++ p) "vanilla"
              "/usr/bin/omicron" None None None Demo.keywords)
    as [Hdefault Hother].
  - reflexivity.
  - split.
    + apply (Hdefault "True"). reflexivity.
    + apply (Hother "GetEnv" "False"); reflexivity.
Defined.


Lemma init_command_lost_witness :
  Job.calls (Job.init Demo.parent_has (fun p => "/cwd/" ++ p) "vanilla"
               "/usr/bin/omicron" None None None
               (<["Command" := "process"]> Demo.keywords)) ≡ₚ
  Job.calls (Job.init Demo.parent_has (fun p => "/cwd/" ++ p) "vanilla"
               "/usr/bin/omicron" None None None
               (delete "Command" Demo.keywords)).
Proof.
  apply (proj2 (init_command_lost Demo.parent_has (fun p => "/cwd/" ++ p)
                  "vanilla" "/usr/bin/omicron" None None None Demo.keywords)
           "Command" "process").
  reflexivity.
Defined.

(** ** The default tag of a job *)

Module PathFacts.
Import Path.

#[local] Arguments String.append : simpl nomatch.

Lemma split_dir_name n : has_slash n = false -> split_dir n = (EmptyString, n).
Proof. destruct n as [|c n]; [done|]. cbn [split_dir]. by intros ->. Qed.

Lemma has_slash_app a b : has_slash (a ++ b) = has_slash a || has_slash b.
Proof.
  induction a as [|c a IH]; cbn [has_slash String.append]; [done|].
  by rewrite IH, orb_assoc.
Qed.

Lemma ends_with_slash_has_slash a : ends_with_slash a = true -> has_slash a = true.
Proof.
  induction a as [|c a IH]; [done|]. cbn [ends_with_slash has_slash].
  destruct a as [|d a]; [by intros ->|]. intros H. rewrite (IH H).
  apply orb_true_r.
Qed.

(** A path is split after its last slash. *)
Lemma split_dir_app head n :
  head = EmptyString \/ ends_with_slash head = true ->
  has_slash n = false ->
  split_dir (head ++ n) = (head, n).
Proof.
  intros Hhead Hn. induction head as [|c head IH].
  - by apply split_dir_name.
  - destruct Hhead as [|Hhead]; [done|].
    change (String c head ++ n) with (String c (head ++ n)).
    cbn [split_dir].
    assert (has_slash (String c (head ++ n)) = true) as ->.
    { change (String c (head ++ n)) with (String c head ++ n).
      by rewrite has_slash_app, (ends_with_slash_has_slash _ Hhead). }
    destruct head as [|d head].
    + change ("" ++ n) with n. by rewrite split_dir_name.
    + rewrite IH; [done|]. by right.
Qed.

Lemma rsplit_dot_none s : has_dot s = false -> rsplit_dot s = None.
Proof.
  induction s as [|c s IH]; [done|]. cbn [has_dot rsplit_dot].
  intros [Hc Hs]%orb_false_iff. by rewrite (IH Hs), Hc.
Qed.

(** The extension starts at the last dot. *)
Lemma rsplit_dot_app name ext :
  has_dot ext = false ->
  rsplit_dot (name ++ "." ++ ext) = Some (name, "." ++ ext).
Proof.
  intros Hext. induction name as [|c name IH].
  - change ("" ++ ?x) with x. change ("." ++ ext) with (String "." ext).
    cbn [rsplit_dot]. by rewrite (rsplit_dot_none _ Hext).
  - change (String c name ++ ?x) with (String c (name ++ x)).
    cbn [rsplit_dot]. by rewrite IH.
Qed.

Lemma all_dots_no_dot name :
  name <> EmptyString -> has_dot name = false -> all_dots name = false.
Proof.
  destruct name as [|c name]; [done|]. cbn [has_dot all_dots].
  by intros _ [-> _]%orb_false_iff.
Qed.

(** The last component of a path without its last extension. *)
Lemma basename_splitext head name ext :
  head = EmptyString \/ ends_with_slash head = true ->
  name <> EmptyString ->
  has_slash name = false -> has_dot name = false ->
  has_slash ext = false -> has_dot ext = false ->
  basename (splitext (head ++ name ++ "." ++ ext)).1 = name.
Proof.
  intros Hhead Hne Hns Hnd Hes Hed. unfold splitext, basename.
  rewrite split_dir_app; [|done|].
  - rewrite rsplit_dot_app by done.
    rewrite (all_dots_no_dot _ Hne Hnd). cbn [fst]. by rewrite split_dir_app.
  - rewrite !has_slash_app, Hns, Hes. done.
Qed.

End PathFacts.

(** Without a tag, the submit file of a job is named after its executable:
    the last component of the path of the executable without its last
    extension, with [.sub], in the directory [subdir] made absolute. *)
Theorem init_default_sub_file (parent_has : string -> bool)
    (abspath : string -> string) (universe head name ext subdir : string)
    (logdir : option string) (cmds : gmap string string) :
  head = EmptyString \/ Path.ends_with_slash head = true ->
  name <> EmptyString ->
  Path.has_slash name = false -> Path.has_dot name = false ->
  Path.has_slash ext = false -> Path.has_dot ext = false ->
  subdir <> EmptyString ->
  Job.ParentCall "set_sub_file" [Path.join (abspath subdir) (name ++ ".sub")]
    ∈ Job.calls (Job.init parent_has abspath universe
                   (head ++ name ++ "." ++ ext) None (Some subdir) logdir cmds).
Proof.
  intros Hhead Hne Hns Hnd Hes Hed Hsub. unfold Job.init.
  rewrite (PathFacts.basename_splitext head name ext) by done.
  cbn [Job.calls]. apply InitFacts.foldl_dispatch_calls. left.
  destruct subdir as [|c subdir]; [done|]. cbn [Job.truthy default].
  unfold Job.parent_call. destruct (Job.truthy logdir); cbn [Job.calls app];
    apply list_elem_of_further, list_elem_of_here.
Qed.

Lemma init_default_sub_file_witness :
  Job.ParentCall "set_sub_file" ["/cwd/condor/omicron-process.sub"]
    ∈ Job.calls (Job.init Demo.parent_has (fun p => "/cwd/" ++ p) "vanilla"
                   "/usr/bin/omicron-process.py" None (Some "condor")
                   (Some "logs") Demo.keywords).
Proof.
  apply (init_default_sub_file Demo.parent_has (fun p => "/cwd/" ++ p)
           "vanilla" "/usr/bin/" "omicron-process" "py" "condor"
           (Some "logs") Demo.keywords).
  - right. reflexivity.
  - discriminate.
  - reflexivity.
  - reflexivity.
  - reflexivity.
  - reflexivity.
  - discriminate.
Defined.
